(** * Office attendance tracker: the policy calculation engine

    A shallow embedding of the four calculation functions of
    [attendance_tracker.py] ([get_week_start], [summarize_weeks],
    [best_8_week_attendance], [calculate_future_needs]) and of the Python
    values they compute with, followed by the properties of the engine.

    - A [datetime.date] is modelled by its proleptic Gregorian ordinal
      ([date.toordinal()]): ordinal 1 is 0001-01-01, a Monday, and
      [date.max] is 9999-12-31, ordinal 3652059.  [date + timedelta] raises
      [OverflowError] outside that range; it is modelled in [option].
    - A Python [int] is a [Z]; [//] and [%] are [Z.div] and [Z.modulo]
      (both round towards minus infinity for a positive divisor).
    - A [dict] is an association list in insertion order with unique keys.
    - A [set] of dates is the duplicate-free list of its elements in the
      order the interpreter happens to iterate them. *)

From Stdlib Require Import ZArith List Lia Bool Permutation Sorted.
Import ListNotations.
Open Scope Z_scope.

(** ** Exceptions: the option monad *)

Definition bind {A B : Type} (c : option A) (k : A -> option B) : option B :=
  match c with
  | Some a => k a
  | None => None
  end.

Notation "x <- c ;; k" := (bind c (fun x => k))
  (at level 61, c at next level, right associativity).

(** A list comprehension whose element expression may raise. *)
Fixpoint mapM {A B : Type} (f : A -> option B) (l : list A) : option (list B) :=
  match l with
  | [] => Some []
  | a :: l' => b <- f a ;; bs <- mapM f l' ;; Some (b :: bs)
  end.

(** ** Python built-ins *)

(** [len]. *)
Definition len {A : Type} (l : list A) : Z := Z.of_nat (length l).

(** [sum] of a list of integers. *)
Definition sum (l : list Z) : Z := fold_left Z.add l 0.

(** [range(lo, hi)]; [range(n)] is [range 0 n].  Empty when [hi <= lo]. *)
Definition range (lo hi : Z) : list Z :=
  map (fun i => lo + Z.of_nat i) (seq 0 (Z.to_nat (hi - lo))).

(** [sorted]: a stable sort.  [leb x y] tells that [x] may stand before
    [y]; an element is put before the first element it may stand before, so
    elements that compare equal keep their input order (as Timsort does,
    also with [reverse=True]). *)
Section Sorted.
Context {A : Type} (leb : A -> A -> bool).

Fixpoint insert (x : A) (l : list A) : list A :=
  match l with
  | [] => [x]
  | y :: l' => if leb x y then x :: y :: l' else y :: insert x l'
  end.

Definition sorted (l : list A) : list A := fold_right insert [] l.
End Sorted.

(** ** Dates *)

Module Date.
Definition date := Z.

Definition MAXORDINAL : Z := 3652059.

(** The dates Python can represent. *)
Definition valid (d : date) : Prop := 1 <= d <= MAXORDINAL.

(** [date.weekday()]: 0 is Monday. *)
Definition weekday (d : date) : Z := (d + 6) mod 7.

(** [d + timedelta(days=n)]. *)
Definition add_days (d : date) (n : Z) : option date :=
  let o := d + n in
  if (0 <? o) && (o <=? MAXORDINAL) then Some o else None.

(** [d - timedelta(days=n)]. *)
Definition sub_days (d : date) (n : Z) : option date := add_days d (- n).

(** [(d1 - d2).days]. *)
Definition days_between (d1 d2 : date) : Z := d1 - d2.

(** Comparison of [(date, int)] tuples. *)
Definition item_leb (x y : date * Z) : bool :=
  (fst x <? fst y) || ((fst x =? fst y) && (snd x <=? snd y)).
End Date.
Import Date.

(** ** Dictionaries (insertion ordered) *)

Module Dict.
Definition dict (V : Type) := list (date * V).

Fixpoint get {V} (m : dict V) (k : date) : option V :=
  match m with
  | [] => None
  | (k', v) :: m' => if k' =? k then Some v else get m' k
  end.

(** [k in m]. *)
Definition mem {V} (m : dict V) (k : date) : bool :=
  match get m k with Some _ => true | None => false end.

(** [m[k] = v]: an existing key keeps its place, a new key goes last. *)
Fixpoint set {V} (m : dict V) (k : date) (v : V) : dict V :=
  match m with
  | [] => [(k, v)]
  | (k', v') :: m' =>
      if k' =? k then (k', v) :: m' else (k', v') :: set m' k v
  end.

Definition keys {V} (m : dict V) : list date := map fst m.
Definition values {V} (m : dict V) : list V := map snd m.
Definition items {V} (m : dict V) : list (date * V) := m.

(** [dict(pairs)]. *)
Definition of_items {V} (l : list (date * V)) : dict V :=
  fold_left (fun m kv => set m (fst kv) (snd kv)) l [].
End Dict.
Import Dict.

(** ** The engine *)

Definition POLICY_DAYS_REQUIRED : Z := 24.

(** [date - timedelta(days=date.weekday())].  The subtraction cannot leave
    the range of dates (lemma [get_week_start_no_overflow]), so the function
    is modelled as total. *)
Definition get_week_start (d : date) : date := d - weekday d.

(** [summary.setdefault(week_start, []).append(d)]: the list stored under
    the key is extended in place; a missing key is first bound to a new
    empty list, at the end of the dict. *)
Fixpoint setdefault_append (summary : dict (list date)) (week_start d : date)
  : dict (list date) :=
  match summary with
  | [] => [(week_start, [d])]
  | (k, v) :: rest =>
      if k =? week_start then (k, v ++ [d]) :: rest
      else (k, v) :: setdefault_append rest week_start d
  end.

(** The loop of [summarize_weeks]. *)
Definition group_weeks (attendance : list date) : dict (list date) :=
  fold_left (fun summary d => setdefault_append summary (get_week_start d) d)
            attendance [].

Definition summarize_weeks (attendance : list date) : dict Z :=
  map (fun kv => (fst kv, len (snd kv))) (items (group_weeks attendance)).

(** [x in l] for a list of dates. *)
Definition elem (x : date) (l : list date) : bool := existsb (Z.eqb x) l.

(** [key=lambda x: x[1], reverse=True]. *)
Definition by_days_desc (x y : date * Z) : bool := snd y <=? snd x.

(** [reverse=True] on integers. *)
Definition desc (x y : Z) : bool := y <=? x.

Definition best_8_week_attendance (attendance : list date) (reference_date : date)
  : option (Z * dict Z * list (date * Z)) :=
  let cutoff := get_week_start reference_date in
  past_12_weeks <- mapM (fun w => sub_days cutoff (7 * w)) (range 1 13) ;;
  let relevant_days :=
    filter (fun d => elem (get_week_start d) past_12_weeks) attendance in
  let summary := summarize_weeks relevant_days in
  let best_8 := firstn 8 (sorted by_days_desc (items summary)) in
  Some (sum (map snd best_8), summary, best_8).

(** [len([d for d in ooo_days if get_week_start(d) == week])]. *)
Definition ooo_count (ooo_days : list date) (week : date) : Z :=
  len (filter (fun d => get_week_start d =? week) ooo_days).

(** The allocation loop of [calculate_future_needs], on the state
    [(plan, shortfall)]; [break] returns the state as it stands.
    [shortfall -= plan[week]] reads back the value stored on the line
    before (lemma [get_set_same]), here [allocated]. *)
Fixpoint allocate (ooo_days : list date) (candidate_weeks : list date)
  (plan : dict Z) (shortfall : Z) : dict Z * Z :=
  match candidate_weeks with
  | [] => (plan, shortfall)
  | week :: rest =>
      let available_days := Z.min 3 (5 - ooo_count ooo_days week) in
      let allocated := Z.min available_days shortfall in
      let plan := set plan week allocated in
      let shortfall := shortfall - allocated in
      if shortfall <=? 0 then (plan, shortfall)
      else allocate ooo_days rest plan shortfall
  end.

(** The second loop: [if week not in plan: plan[week] = 0]. *)
Definition fill_rest (candidate_weeks : list date) (plan : dict Z) : dict Z :=
  fold_left (fun plan week => if mem plan week then plan else set plan week 0)
            candidate_weeks plan.

(** [today] is the value of [datetime.today().date()], which the function
    reads from the system clock; it is not one of its Python parameters. *)
Definition calculate_future_needs (today : date)
  (summary : dict Z) (ooo_days : list date) (reference_date : date)
  : option (dict Z) :=
  let start_week := get_week_start today in
  ref5 <- add_days reference_date (7 * 5) ;;
  let end_week := get_week_start ref5 in
  let num_weeks := days_between end_week start_week / 7 + 1 in
  candidate_weeks <- mapM (fun w => add_days start_week (7 * w)) (range 0 num_weeks) ;;
  let current_total := sum (firstn 8 (sorted desc (values summary))) in
  let shortfall := Z.max (POLICY_DAYS_REQUIRED - current_total) 0 in
  let plan := fst (allocate ooo_days candidate_weeks [] shortfall) in
  let plan := fill_rest candidate_weeks plan in
  Some (of_items (sorted item_leb (items plan))).

(** ** The page script

    The module-level code around the engine: the weeks shown in the
    calendar, the status radio of each day, the projected total and the
    search for the week in which the policy is met. *)

Definition generate_weeks (start_date : date) (num_weeks : Z) : option (list date) :=
  mapM (fun w => d <- sub_days start_date (7 * w) ;; Some (get_week_start d))
       (range 0 num_weeks).

(** [today + timedelta(days=(7 - today.weekday()) % 7)]. *)
Definition next_monday (today : date) : option date :=
  add_days today ((7 - weekday today) mod 7).

(** [generate_weeks(selected_future_week - timedelta(weeks=1), 12)[::-1]]. *)
Definition past_weeks (selected_future_week : date) : option (list date) :=
  start <- sub_days selected_future_week (7 * 1) ;;
  weeks <- generate_weeks start 12 ;;
  Some (rev weeks).

Definition future_weeks (selected_future_week : date) : option (list date) :=
  mapM (fun w => d <- add_days selected_future_week (7 * w) ;;
                 Some (get_week_start d))
       (range 0 6).

Definition combined_weeks (selected_future_week : date) : option (list date) :=
  past <- past_weeks selected_future_week ;;
  future <- future_weeks selected_future_week ;;
  Some (past ++ future).

(** Python sets of dates, as lists without duplicates; the place a new
    element takes in the iteration order is not specified by Python. *)
Module DateSet.
Definition add (s : list date) (d : date) : list date :=
  if elem d s then s else d :: s.

Definition discard (s : list date) (d : date) : list date :=
  filter (fun x => negb (x =? d)) s.
End DateSet.

(** The three options of the status radio. *)
Inductive status : Type :=
| StatusNone
| StatusOffice
| StatusWFH.

(** [st.session_state.attendance] and [st.session_state.ooo]. *)
Record session : Type := {
  attendance : list date;
  ooo : list date
}.

(** The branch taken for one day once its radio has a value. *)
Definition mark (st : session) (day : date) (s : status) : session :=
  match s with
  | StatusOffice =>
      {| attendance := DateSet.add (attendance st) day;
         ooo := DateSet.discard (ooo st) day |}
  | StatusWFH =>
      {| attendance := DateSet.discard (attendance st) day;
         ooo := DateSet.add (ooo st) day |}
  | StatusNone =>
      {| attendance := DateSet.discard (attendance st) day;
         ooo := DateSet.discard (ooo st) day |}
  end.

(** The calendar loop, on the list of the days shown with the value of
    each day's radio. *)
Definition mark_all (st : session) (choices : list (date * status)) : session :=
  fold_left (fun st c => mark st (fst c) (snd c)) choices st.

(** [past_days + len(future_attendance)]. *)
Definition total_projected (attendance : list date) (selected_future_week : date)
  : option Z :=
  r <- best_8_week_attendance attendance selected_future_week ;;
  let past_days := fst (fst r) in
  let future_attendance := filter (fun d => selected_future_week <=? d) attendance in
  Some (past_days + len future_attendance).

(** The loop over [future_weeks_keys]; [needs[week]] raises [KeyError] on
    a missing key. *)
Fixpoint cumulative_totals (needs : dict Z) (future_weeks_keys : list date)
  (running_total : Z) : option (list Z) :=
  match future_weeks_keys with
  | [] => Some []
  | week :: rest =>
      n <- get needs week ;;
      let running_total := running_total + n in
      totals <- cumulative_totals needs rest running_total ;;
      Some (running_total :: totals)
  end.

(** The search loop over [enumerate(cumulative_totals)], from index [idx];
    [None] is Python's [None]. *)
Fixpoint aligned_week_index_from (idx : Z) (cumulative_totals : list Z) : option Z :=
  match cumulative_totals with
  | [] => None
  | total :: rest =>
      if POLICY_DAYS_REQUIRED <=? total then Some idx
      else aligned_week_index_from (idx + 1) rest
  end.

Definition aligned_week_index (cumulative_totals : list Z) : option Z :=
  aligned_week_index_from 0 cumulative_totals.

(** The projection column of the page, from the selector to the aligned
    week: the outer [option] is an exception, the inner one Python's [None]. *)
Definition projection (today : date) (attendance ooo_days : list date)
  (selected_future_week : date) : option (dict Z * option Z) :=
  r <- best_8_week_attendance attendance selected_future_week ;;
  let past_days := fst (fst r) in
  let past_summary := snd (fst r) in
  needs <- calculate_future_needs today past_summary ooo_days selected_future_week ;;
  totals <- cumulative_totals needs (keys needs) past_days ;;
  Some (needs, aligned_week_index totals).

(** ** Vocabulary of the statements *)

(** The dates of [l] that fall in the week starting on [week]. *)
Definition days_in_week (l : list date) (week : date) : list date :=
  filter (fun d => get_week_start d =? week) l.

(** [week] is one of the 12 weeks strictly before the week of [cutoff]. *)
Definition in_window (cutoff week : date) : bool :=
  (cutoff - 7 * 12 <=? week) && (week <? cutoff).

(** The largest sum of at most [k] entries of [l] (entries may be skipped). *)
Fixpoint best (k : nat) (l : list Z) : Z :=
  match k, l with
  | O, _ => 0
  | _, [] => 0
  | S k', v :: l' => Z.max (v + best k' l') (best k l')
  end.

(** What the allocation loop appends to the plan, week by week, up to and
    including the week at which it breaks. *)
Fixpoint allocated_items (ooo_days : list date) (candidate_weeks : list date)
  (shortfall : Z) : list (date * Z) :=
  match candidate_weeks with
  | [] => []
  | week :: rest =>
      let allocated := Z.min (Z.min 3 (5 - ooo_count ooo_days week)) shortfall in
      (week, allocated) ::
      (if shortfall - allocated <=? 0 then []
       else allocated_items ooo_days rest (shortfall - allocated))
  end.

(** The distinct weeks of the 12-week window in which [attendance] has a
    date. *)
Definition weeks_with_attendance (cutoff : date) (attendance : list date)
  : list date :=
  nodup Z.eq_dec
    (map get_week_start
         (filter (fun d => in_window cutoff (get_week_start d)) attendance)).

(** The candidate weeks of the planner: [start_week + timedelta(weeks=w)]
    for [w] in [range(num_weeks)]. *)
Definition candidate_weeks (today reference_date : date) : list date :=
  let start_week := get_week_start today in
  let end_week := get_week_start (reference_date + 7 * 5) in
  let num_weeks := days_between end_week start_week / 7 + 1 in
  map (fun w => start_week + 7 * w) (range 0 num_weeks).

(** The shortfall the planner starts from. *)
Definition initial_shortfall (summary : dict Z) : Z :=
  Z.max (POLICY_DAYS_REQUIRED - sum (firstn 8 (sorted desc (values summary)))) 0.

(** The capacity of a week: [min(3, 5 - oooCount(week))]. *)
Definition capacity (ooo_days : list date) (week : date) : Z :=
  Z.min 3 (5 - ooo_count ooo_days week).

(** The two sets of a session share no date. *)
Definition disjoint (st : session) : Prop :=
  forall d, In d (attendance st) -> In d (ooo st) -> False.

(** Every date of [l] is a Monday to Friday. *)
Definition business_days (l : list date) : Prop :=
  forall d, In d l -> weekday d < 5.

(** Below a week that did not get its whole capacity, every later week of
    the plan holds 0. *)
Fixpoint front_loaded (ooo_days : list date) (plan : list (date * Z)) : Prop :=
  match plan with
  | [] => True
  | (week, n) :: rest =>
      (n < capacity ooo_days week -> Forall (fun kv => snd kv = 0) rest)
      /\ front_loaded ooo_days rest
  end.

(** The running totals of [l] on top of [start]. *)
Fixpoint running_sums (start : Z) (l : list Z) : list Z :=
  match l with
  | [] => []
  | n :: rest => (start + n) :: running_sums (start + n) rest
  end.

(** ** Concrete runs *)

(** 2023-10-02 .. 2023-10-04 and 2023-10-09 are ordinals 738795 .. 738797
    and 738802; 2024-01-01 and 2024-01-08 are Mondays, ordinals 738886 and
    738893.  Seen from 2024-01-01, the week of 2023-10-09 is 12 weeks back
    and the week of 2023-10-02 is 13 weeks back. *)
Example summarize_run :
  summarize_weeks [738796; 738802; 738795; 738797] = [(738795, 3); (738802, 1)].
Proof. reflexivity. Qed.

Example best_8_run :
  best_8_week_attendance [738796; 738802; 738795; 738797; 738886] 738886
  = Some (1, [(738802, 1)], [(738802, 1)]).
Proof. reflexivity. Qed.

Example plan_run :
  calculate_future_needs 738886 [(738795, 3); (738802, 1)] [] 738893
  = Some [(738886, 3); (738893, 3); (738900, 3); (738907, 3); (738914, 3);
          (738921, 3); (738928, 2)].
Proof. reflexivity. Qed.

(** * Properties *)

(** ** Built-ins *)

Lemma fold_add_acc (l : list Z) (a : Z) :
  fold_left Z.add l a = a + fold_left Z.add l 0.
Proof.
  revert a; induction l as [|x l IH]; intros a; simpl.
  - lia.
  - rewrite (IH (a + x)), (IH x). lia.
Qed.

Lemma sum_nil : sum [] = 0.
Proof. reflexivity. Qed.

Lemma sum_cons (x : Z) (l : list Z) : sum (x :: l) = x + sum l.
Proof. unfold sum; simpl. now rewrite fold_add_acc. Qed.

Lemma sum_app (l1 l2 : list Z) : sum (l1 ++ l2) = sum l1 + sum l2.
Proof.
  induction l1 as [|x l1 IH]; cbn [app].
  - rewrite sum_nil; lia.
  - rewrite !sum_cons, IH; lia.
Qed.

Lemma sum_perm (l1 l2 : list Z) : Permutation l1 l2 -> sum l1 = sum l2.
Proof.
  induction 1; rewrite ?sum_cons; lia.
Qed.

Lemma len_nil {A} : len (@nil A) = 0.
Proof. reflexivity. Qed.

Lemma len_cons {A} (x : A) (l : list A) : len (x :: l) = 1 + len l.
Proof. unfold len; simpl length; lia. Qed.

Lemma len_app {A} (l1 l2 : list A) : len (l1 ++ l2) = len l1 + len l2.
Proof. unfold len; rewrite length_app; lia. Qed.

Lemma len_nonneg {A} (l : list A) : 0 <= len l.
Proof. unfold len; lia. Qed.

Lemma range_In (lo hi x : Z) : In x (range lo hi) <-> lo <= x < hi.
Proof.
  unfold range; rewrite in_map_iff; split.
  - intros (i & <- & Hi); apply in_seq in Hi; lia.
  - intros H; exists (Z.to_nat (x - lo)); split; [lia|].
    apply in_seq; lia.
Qed.

Lemma mapM_map {A B} (f : A -> option B) (g : A -> B) (l : list A) (l' : list B) :
  (forall a b, In a l -> f a = Some b -> b = g a) ->
  mapM f l = Some l' -> l' = map g l.
Proof.
  revert l'; induction l as [|a l IH]; intros l' Hfg; simpl.
  - now intros [= <-].
  - destruct (f a) as [b|] eqn:Ha; simpl; [|discriminate].
    destruct (mapM f l) as [bs|] eqn:Hl; simpl; [|discriminate].
    intros [= <-]; f_equal.
    + apply Hfg; [now left | assumption].
    + apply IH; [|reflexivity]. intros; apply Hfg; [now right | assumption].
Qed.

Lemma mapM_total {A B} (f : A -> option B) (g : A -> B) (l : list A) :
  (forall a, In a l -> f a = Some (g a)) -> mapM f l = Some (map g l).
Proof.
  induction l as [|a l IH]; intros Hfg; simpl.
  - reflexivity.
  - rewrite Hfg by now left. simpl. rewrite IH; [reflexivity|].
    intros; apply Hfg; now right.
Qed.

(** ** Week bucketing *)

Lemma add_days_Some (d n r : Z) : add_days d n = Some r -> r = d + n.
Proof.
  unfold add_days; cbv zeta.
  destruct ((0 <? d + n) && (d + n <=? MAXORDINAL)); now intros [= <-].
Qed.

Lemma add_days_in_range (d n : Z) :
  valid (d + n) -> add_days d n = Some (d + n).
Proof.
  unfold valid, add_days; intros H; cbv zeta.
  replace (0 <? d + n) with true by (symmetry; apply Z.ltb_lt; lia).
  replace (d + n <=? MAXORDINAL) with true by (symmetry; apply Z.leb_le; lia).
  reflexivity.
Qed.

Lemma weekday_range (d : date) : 0 <= weekday d < 7.
Proof. unfold weekday; apply Z.mod_pos_bound; lia. Qed.

Lemma weekday_week_start (d : date) : weekday (get_week_start d) = 0.
Proof.
  unfold get_week_start, weekday.
  pose proof (Z.div_mod (d + 6) 7 ltac:(lia)) as H.
  replace (d - (d + 6) mod 7 + 6) with (0 + ((d + 6) / 7 * 7 + 6 - 6)) by lia.
  replace ((d + 6) / 7 * 7 + 6 - 6) with ((d + 6) / 7 * 7) by lia.
  now rewrite Z.mod_add by lia.
Qed.

Lemma week_start_monday (d : date) : weekday d = 0 -> get_week_start d = d.
Proof. unfold get_week_start; intros ->; lia. Qed.

Lemma week_start_bounds (d : date) : d - 6 <= get_week_start d <= d.
Proof. unfold get_week_start; pose proof (weekday_range d); lia. Qed.

(** A valid date never overflows in [get_week_start]: the first date Python
    represents is itself a Monday. *)
Lemma get_week_start_no_overflow (d : date) :
  valid d ->
  sub_days d (weekday d) = Some (get_week_start d) /\ valid (get_week_start d).
Proof.
  intros Hd.
  assert (Hv : valid (get_week_start d)).
  { unfold valid in *; pose proof (week_start_bounds d).
    unfold get_week_start, weekday in *.
    pose proof (Z.div_mod (d + 6) 7 ltac:(lia)).
    pose proof (Z.mod_pos_bound (d + 6) 7 ltac:(lia)).
    assert (1 <= (d + 6) / 7) by (apply Z.div_le_lower_bound; lia).
    lia. }
  split; [|exact Hv].
  unfold sub_days; rewrite add_days_in_range; [reflexivity|exact Hv].
Qed.

(** Two Mondays differ by a whole number of weeks. *)
Lemma monday_diff (a b : date) :
  weekday a = 0 -> weekday b = 0 -> exists w, a = b + 7 * w.
Proof.
  unfold weekday; intros Ha Hb.
  pose proof (Z.div_mod (a + 6) 7 ltac:(lia)).
  pose proof (Z.div_mod (b + 6) 7 ltac:(lia)).
  exists ((a + 6) / 7 - (b + 6) / 7); lia.
Qed.

Lemma weekday_add_weeks (d w : Z) : weekday (d + 7 * w) = weekday d.
Proof.
  unfold weekday.
  replace (d + 7 * w + 6) with (d + 6 + w * 7) by lia.
  apply Z.mod_add; lia.
Qed.

(** C9. Bucketing is idempotent: the week-start of a week-start is that
    same week-start, for every date. *)
Theorem get_week_start_idempotent (d : date) :
  get_week_start (get_week_start d) = get_week_start d.
Proof. apply week_start_monday, weekday_week_start. Qed.

(** ** Dictionaries *)

Lemma get_In {V} (m : dict V) (k : date) (v : V) :
  get m k = Some v -> In (k, v) m.
Proof.
  induction m as [|[k' v'] m IH]; simpl; [discriminate|].
  destruct (Z.eqb_spec k' k) as [->|Hne].
  - intros [= ->]; now left.
  - intros H; right; auto.
Qed.

Lemma get_None {V} (m : dict V) (k : date) :
  get m k = None <-> ~ In k (keys m).
Proof.
  induction m as [|[k' v'] m IH]; simpl.
  - tauto.
  - destruct (Z.eqb_spec k' k) as [->|Hne].
    + split; [discriminate | intros H; exfalso; apply H; now left].
    + rewrite IH; tauto.
Qed.

Lemma In_get {V} (m : dict V) (k : date) (v : V) :
  NoDup (keys m) -> In (k, v) m -> get m k = Some v.
Proof.
  induction m as [|[k' v'] m IH]; simpl; [tauto|].
  intros Hnd [[= -> ->]|Hin].
  - now rewrite Z.eqb_refl.
  - inversion Hnd as [|? ? Hk' Hm]; subst.
    destruct (Z.eqb_spec k' k) as [->|Hne].
    + exfalso; apply Hk'. change k with (fst (k, v)). now apply in_map.
    + auto.
Qed.

Lemma In_keys_get {V} (m : dict V) (k : date) :
  In k (keys m) <-> exists v, get m k = Some v.
Proof.
  destruct (get m k) as [v|] eqn:H.
  - split; [now exists v|]. intros _.
    change k with (fst (k, v)); apply in_map; now apply get_In.
  - split; [|intros [v [=]]]. intros Hin. now apply get_None in H.
Qed.

Lemma set_fresh {V} (m : dict V) (k : date) (v : V) :
  ~ In k (keys m) -> set m k v = m ++ [(k, v)].
Proof.
  induction m as [|[k' v'] m IH]; simpl; [reflexivity|].
  intros Hk. destruct (Z.eqb_spec k' k) as [->|Hne]; [tauto|].
  rewrite IH; tauto.
Qed.

Lemma get_set_same {V} (m : dict V) (k : date) (v : V) :
  get (set m k v) k = Some v.
Proof.
  induction m as [|[k' v'] m IH]; simpl.
  - now rewrite Z.eqb_refl.
  - destruct (Z.eqb_spec k' k) as [->|Hne]; simpl.
    + now rewrite Z.eqb_refl.
    + destruct (Z.eqb_spec k' k); [contradiction|exact IH].
Qed.

Lemma of_items_acc {V} (l : list (date * V)) (m : dict V) :
  NoDup (keys m ++ keys l) ->
  fold_left (fun m kv => set m (fst kv) (snd kv)) l m = m ++ l.
Proof.
  revert m; induction l as [|[k v] l IH]; intros m Hnd; simpl.
  - now rewrite app_nil_r.
  - rewrite set_fresh.
    + rewrite IH.
      * now rewrite <- app_assoc.
      * unfold keys in *. rewrite map_app, <- app_assoc. exact Hnd.
    + apply NoDup_remove_2 in Hnd. intros Hin; apply Hnd, in_or_app; now left.
Qed.

Lemma of_items_id {V} (l : list (date * V)) :
  NoDup (keys l) -> of_items l = l.
Proof. intros Hnd; unfold of_items; now rewrite of_items_acc. Qed.

Lemma get_map_values {V W} (f : V -> W) (m : dict V) (k : date) :
  get (map (fun kv => (fst kv, f (snd kv))) m) k = option_map f (get m k).
Proof.
  induction m as [|[k' v'] m IH]; simpl; [reflexivity|].
  now destruct (k' =? k).
Qed.

Lemma keys_map_values {V W} (f : V -> W) (m : dict V) :
  keys (map (fun kv => (fst kv, f (snd kv))) m) = keys m.
Proof. unfold keys; rewrite map_map; reflexivity. Qed.

(** ** Weekly summarizer *)

Lemma get_setdefault_append (g : dict (list date)) (k d k' : date) :
  get (setdefault_append g k d) k' =
  if k =? k'
  then Some (match get g k with Some v => v ++ [d] | None => [d] end)
  else get g k'.
Proof.
  induction g as [|[k0 v0] g IH]; simpl.
  - reflexivity.
  - destruct (Z.eqb_spec k0 k) as [->|Hne]; simpl.
    + destruct (Z.eqb_spec k k'); reflexivity.
    + rewrite IH. destruct (Z.eqb_spec k k') as [->|Hne'].
      * destruct (Z.eqb_spec k0 k'); [contradiction|reflexivity].
      * reflexivity.
Qed.

Lemma keys_setdefault_append (g : dict (list date)) (k d : date) :
  keys (setdefault_append g k d) = if mem g k then keys g else keys g ++ [k].
Proof.
  unfold mem; induction g as [|[k0 v0] g IH]; simpl.
  - reflexivity.
  - destruct (Z.eqb_spec k0 k) as [->|Hne]; simpl; [reflexivity|].
    rewrite IH. now destruct (get g k).
Qed.

Lemma sum_len_setdefault_append (g : dict (list date)) (k d : date) :
  sum (map (fun kv => len (snd kv)) (setdefault_append g k d))
  = sum (map (fun kv => len (snd kv)) g) + 1.
Proof.
  induction g as [|[k0 v0] g IH]; simpl.
  - reflexivity.
  - destruct (k0 =? k); simpl map; rewrite !sum_cons; simpl snd.
    + rewrite len_app, len_cons, len_nil; lia.
    + rewrite IH; lia.
Qed.

Lemma group_weeks_snoc (l : list date) (d : date) :
  group_weeks (l ++ [d]) = setdefault_append (group_weeks l) (get_week_start d) d.
Proof. unfold group_weeks; now rewrite fold_left_app. Qed.

Lemma days_in_week_snoc (l : list date) (d k : date) :
  days_in_week (l ++ [d]) k =
  days_in_week l k ++ (if get_week_start d =? k then [d] else []).
Proof. unfold days_in_week; now rewrite filter_app. Qed.

(** The list stored under a week is the list of the dates of that week, in
    input order; a week without dates has no entry. *)
Lemma get_group_weeks (l : list date) (k : date) :
  get (group_weeks l) k =
  match days_in_week l k with [] => None | _ :: _ => Some (days_in_week l k) end.
Proof.
  induction l as [|d l IH] using rev_ind.
  - reflexivity.
  - rewrite group_weeks_snoc, get_setdefault_append, days_in_week_snoc.
    destruct (Z.eqb_spec (get_week_start d) k) as [->|Hne].
    + rewrite IH. destruct (days_in_week l k); reflexivity.
    + rewrite IH, app_nil_r. reflexivity.
Qed.

Lemma NoDup_keys_group_weeks (l : list date) : NoDup (keys (group_weeks l)).
Proof.
  induction l as [|d l IH] using rev_ind.
  - constructor.
  - rewrite group_weeks_snoc, keys_setdefault_append.
    unfold mem. destruct (get _ _) eqn:Hg; [exact IH|].
    apply get_None in Hg.
    apply Permutation_NoDup with (l := get_week_start d :: keys (group_weeks l)).
    + apply Permutation_cons_append.
    + now constructor.
Qed.

Lemma keys_summarize_weeks (l : list date) :
  keys (summarize_weeks l) = keys (group_weeks l).
Proof. apply keys_map_values. Qed.

Lemma NoDup_keys_summarize_weeks (l : list date) : NoDup (keys (summarize_weeks l)).
Proof. rewrite keys_summarize_weeks; apply NoDup_keys_group_weeks. Qed.

Lemma get_summarize_weeks (l : list date) (k : date) :
  get (summarize_weeks l) k =
  match days_in_week l k with [] => None | _ :: _ => Some (len (days_in_week l k)) end.
Proof.
  unfold summarize_weeks, items. rewrite get_map_values, get_group_weeks.
  now destruct (days_in_week l k).
Qed.

Lemma sum_values_summarize_weeks (l : list date) :
  sum (values (summarize_weeks l)) = len l.
Proof.
  unfold summarize_weeks, values, items. rewrite map_map. simpl.
  induction l as [|d l IH] using rev_ind.
  - reflexivity.
  - rewrite group_weeks_snoc, sum_len_setdefault_append, IH, len_app.
    reflexivity.
Qed.

Lemma In_keys_summarize_weeks (l : list date) (k : date) :
  In k (keys (summarize_weeks l)) <-> exists d, In d l /\ get_week_start d = k.
Proof.
  rewrite In_keys_get, get_summarize_weeks. split.
  - intros [v Hv]. destruct (days_in_week l k) as [|d r] eqn:Hd; [discriminate|].
    assert (Hin : In d (days_in_week l k)) by (rewrite Hd; now left).
    apply filter_In in Hin. exists d; split; [tauto|]. now apply Z.eqb_eq.
  - intros (d & Hin & Hk).
    assert (Hd : In d (days_in_week l k)).
    { apply filter_In; split; [exact Hin|]. now apply Z.eqb_eq. }
    destruct (days_in_week l k); [contradiction|]. now eexists.
Qed.

Lemma In_items_summarize_weeks (l : list date) (k n : Z) :
  In (k, n) (items (summarize_weeks l)) <->
  n = len (days_in_week l k) /\ 1 <= n.
Proof.
  unfold items; split.
  - intros Hin. apply In_get in Hin; [|apply NoDup_keys_summarize_weeks].
    rewrite get_summarize_weeks in Hin.
    destruct (days_in_week l k) eqn:Hd; [discriminate|].
    injection Hin as <-. split; [reflexivity|].
    rewrite len_cons. pose proof (len_nonneg l0). lia.
  - intros [-> Hn]. apply get_In. rewrite get_summarize_weeks.
    destruct (days_in_week l k); [rewrite len_nil in Hn; lia|reflexivity].
Qed.

(** C5. Summary conservation and sparsity: for the list [S] of the elements
    of a finite set of dates (whose length is the cardinality of the set),
    the counts of [summarize_weeks S] add up to the number of dates; a week
    is a key exactly when some date of [S] falls in it; and every count
    stored is at least 1, so no week is present with value 0. *)
Theorem summarize_weeks_conservation (S : list date) :
  sum (values (summarize_weeks S)) = len S
  /\ (forall week, In week (keys (summarize_weeks S)) <->
                   exists d, In d S /\ get_week_start d = week)
  /\ (forall week n, In (week, n) (items (summarize_weeks S)) ->
                     n = len (days_in_week S week) /\ 1 <= n).
Proof.
  split; [apply sum_values_summarize_weeks|].
  split; [apply In_keys_summarize_weeks|].
  intros week n; apply In_items_summarize_weeks.
Qed.

(** ** Sorting *)

Section SortedFacts.
Context {A : Type} (leb : A -> A -> bool).

Lemma insert_perm (x : A) (l : list A) : Permutation (insert leb x l) (x :: l).
Proof.
  induction l as [|y l IH]; simpl.
  - reflexivity.
  - destruct (leb x y); [reflexivity|].
    rewrite IH. apply perm_swap.
Qed.

Lemma sorted_perm (l : list A) : Permutation (sorted leb l) l.
Proof.
  induction l as [|x l IH]; simpl.
  - reflexivity.
  - rewrite insert_perm. now constructor.
Qed.

Lemma sorted_length (l : list A) : length (sorted leb l) = length l.
Proof. apply Permutation_length, sorted_perm. Qed.

(** A stable sort leaves a list that is already in order as it is. *)
Lemma sorted_already (l : list A) :
  Sorted (fun x y => leb x y = true) l -> sorted leb l = l.
Proof.
  induction 1 as [|x l Hs IH Hhd]; simpl.
  - reflexivity.
  - rewrite IH. destruct Hhd as [|y l Hxy]; simpl; [reflexivity|].
    now rewrite Hxy.
Qed.
End SortedFacts.

Lemma map_sorted {A B} (f : A -> B) (leb : A -> A -> bool) (leb' : B -> B -> bool) :
  (forall x y, leb x y = leb' (f x) (f y)) ->
  forall l, map f (sorted leb l) = sorted leb' (map f l).
Proof.
  intros Hf. induction l as [|x l IH]; simpl; [reflexivity|].
  rewrite <- IH. generalize (sorted leb l) as s. clear IH.
  induction s as [|y s IHs]; simpl; [reflexivity|].
  rewrite <- Hf. destruct (leb x y); simpl; [reflexivity|].
  now rewrite IHs.
Qed.

Lemma insert_desc_sorted (x : Z) (l : list Z) :
  Sorted Z.ge l -> Sorted Z.ge (insert desc x l).
Proof.
  induction 1 as [|y l Hs IH Hhd]; simpl.
  - repeat constructor.
  - unfold desc at 1. destruct (Z.leb_spec y x).
    + constructor; [now constructor|]. constructor; lia.
    + constructor; [exact IH|].
      destruct Hhd as [|z l Hyz]; simpl.
      * constructor; lia.
      * unfold desc. destruct (Z.leb_spec z x); constructor; lia.
Qed.

Lemma sorted_desc_sorted (l : list Z) : StronglySorted Z.ge (sorted desc l).
Proof.
  apply Sorted_StronglySorted.
  - intros x y z; lia.
  - induction l as [|x l IH]; simpl; [constructor|].
    now apply insert_desc_sorted.
Qed.

(** Two descending lists with the same entries are the same list. *)
Lemma descending_unique (l1 l2 : list Z) :
  StronglySorted Z.ge l1 -> StronglySorted Z.ge l2 ->
  Permutation l1 l2 -> l1 = l2.
Proof.
  intros H1; revert l2; induction H1 as [|x l1 Hs1 IH Hx]; intros l2 H2 Hp.
  - now apply Permutation_nil in Hp.
  - destruct H2 as [|y l2 Hs2 Hy].
    + symmetry in Hp; now apply Permutation_nil in Hp.
    + assert (x = y) as ->.
      { rewrite Forall_forall in Hx, Hy.
        assert (Hy' : In y (x :: l1)).
        { apply Permutation_in with (l := y :: l2); [now symmetry | now left]. }
        assert (Hx' : In x (y :: l2)).
        { apply Permutation_in with (l := x :: l1); [exact Hp | now left]. }
        destruct Hy' as [->|Hy']; [reflexivity|].
        destruct Hx' as [->|Hx']; [reflexivity|].
        specialize (Hx _ Hy'). specialize (Hy _ Hx'). lia. }
      f_equal. apply IH; [exact Hs2|]. now apply Permutation_cons_inv in Hp.
Qed.

Lemma sorted_desc_perm (l1 l2 : list Z) :
  Permutation l1 l2 -> sorted desc l1 = sorted desc l2.
Proof.
  intros Hp. apply descending_unique; try apply sorted_desc_sorted.
  rewrite !sorted_perm. exact Hp.
Qed.

Lemma In_firstn {A} (n : nat) (l : list A) (x : A) : In x (firstn n l) -> In x l.
Proof.
  intros H. rewrite <- (firstn_skipn n l). apply in_or_app; now left.
Qed.

(** ** Best-subset selector *)

Lemma elem_In (x : date) (l : list date) : elem x l = true <-> In x l.
Proof.
  unfold elem. rewrite existsb_exists. split.
  - intros (y & Hy & Heq). apply Z.eqb_eq in Heq. now subst.
  - intros H; exists x; split; [exact H | apply Z.eqb_refl].
Qed.

(** Among week-starts, membership in the list of the 12 past weeks is
    membership in the window. *)
Lemma elem_past_12_weeks (cutoff k : date) :
  weekday cutoff = 0 -> weekday k = 0 ->
  elem k (map (fun w => cutoff - 7 * w) (range 1 13)) = in_window cutoff k.
Proof.
  intros Hc Hk. apply eq_true_iff_eq. rewrite elem_In, in_map_iff.
  unfold in_window. rewrite andb_true_iff, Z.leb_le, Z.ltb_lt. split.
  - intros (w & <- & Hw). apply range_In in Hw. lia.
  - intros [Hlo Hhi]. destruct (monday_diff cutoff k Hc Hk) as [w Hw].
    exists w. split; [lia|]. apply range_In. lia.
Qed.

Lemma best_8_inv (attendance : list date) (reference_date : date)
      (total : Z) (summary : dict Z) (best_8 : list (date * Z)) :
  best_8_week_attendance attendance reference_date = Some (total, summary, best_8) ->
  summary = summarize_weeks
              (filter (fun d => in_window (get_week_start reference_date)
                                          (get_week_start d)) attendance)
  /\ best_8 = firstn 8 (sorted by_days_desc (items summary))
  /\ total = sum (map snd best_8).
Proof.
  unfold best_8_week_attendance. cbv zeta.
  destruct (mapM _ (range 1 13)) as [past|] eqn:Hpast; simpl; [|discriminate].
  apply mapM_map with (g := fun w => get_week_start reference_date - 7 * w) in Hpast.
  2:{ intros a b _ Hb. apply add_days_Some in Hb. lia. }
  subst past. intros [= <- <- <-].
  split; [|split; reflexivity].
  f_equal. apply filter_ext. intros d.
  apply elem_past_12_weeks; apply weekday_week_start.
Qed.

(** The selector returns whenever the twelfth week before the cutoff is
    still a date: it raises only in the first twelve weeks of year 1. *)
Lemma best_8_week_attendance_returns (attendance : list date) (reference_date : date) :
  valid reference_date -> 7 * 12 < get_week_start reference_date ->
  exists r, best_8_week_attendance attendance reference_date = Some r.
Proof.
  intros Hv Hc. unfold best_8_week_attendance. cbv zeta.
  rewrite mapM_total with (g := fun w => get_week_start reference_date - 7 * w).
  - simpl. eexists; reflexivity.
  - intros w Hw. apply range_In in Hw. unfold sub_days.
    rewrite add_days_in_range; [f_equal; lia|].
    pose proof (week_start_bounds reference_date). unfold valid in *. lia.
Qed.

Lemma best_8_total_top (summary : dict Z) :
  sum (map snd (firstn 8 (sorted by_days_desc (items summary))))
  = sum (firstn 8 (sorted desc (values summary))).
Proof.
  rewrite <- firstn_map. do 2 f_equal.
  unfold values, items. now apply map_sorted.
Qed.

Lemma best_8_incl (summary : dict Z) :
  incl (firstn 8 (sorted by_days_desc (items summary))) (items summary).
Proof.
  intros x Hx. apply In_firstn in Hx.
  apply Permutation_in with (l := sorted by_days_desc (items summary));
    [apply sorted_perm | exact Hx].
Qed.

Lemma days_in_week_window (cutoff : date) (l : list date) (k : date) :
  days_in_week (filter (fun d => in_window cutoff (get_week_start d)) l) k
  = if in_window cutoff k then days_in_week l k else [].
Proof.
  unfold days_in_week. induction l as [|d l IH]; simpl.
  - now destruct (in_window cutoff k).
  - destruct (Z.eqb_spec (get_week_start d) k) as [Hk|Hne].
    + rewrite Hk. destruct (in_window cutoff k) eqn:Hw; simpl.
      * rewrite Hk, Z.eqb_refl. now rewrite IH.
      * exact IH.
    + destruct (in_window cutoff (get_week_start d)); simpl.
      * destruct (Z.eqb_spec (get_week_start d) k); [contradiction|exact IH].
      * exact IH.
Qed.

Lemma get_summarize_window (cutoff : date) (l : list date) (k : date) :
  get (summarize_weeks (filter (fun d => in_window cutoff (get_week_start d)) l)) k
  = if in_window cutoff k then get (summarize_weeks l) k else None.
Proof.
  rewrite !get_summarize_weeks, days_in_week_window.
  now destruct (in_window cutoff k).
Qed.

(** C2. Window boundary of the selector: the summary it returns is the
    summary of exactly the dates whose week-start is one of the 12 weeks
    strictly before the week of the reference date; week by week, a week of
    the window has the count of all its dates and any other week has no
    entry.  A date of the cutoff week contributes nothing, a date whose
    week-start is exactly 12 weeks before the cutoff is counted, and a date
    whose week-start is 13 or more weeks before the cutoff is not. *)
Theorem best_8_window (attendance : list date) (reference_date : date)
      (total : Z) (summary : dict Z) (best_8 : list (date * Z)) :
  best_8_week_attendance attendance reference_date = Some (total, summary, best_8) ->
  let cutoff := get_week_start reference_date in
  summary = summarize_weeks
              (filter (fun d => in_window cutoff (get_week_start d)) attendance)
  /\ total = sum (firstn 8 (sorted desc (values summary)))
  /\ (forall week, get summary week =
                   if in_window cutoff week
                   then get (summarize_weeks attendance) week else None)
  /\ (forall d, get_week_start d = cutoff -> get summary (get_week_start d) = None)
  /\ (forall d, In d attendance -> get_week_start d = cutoff - 7 * 12 ->
                get summary (get_week_start d)
                = Some (len (days_in_week attendance (get_week_start d)))
                /\ 1 <= len (days_in_week attendance (get_week_start d)))
  /\ (forall d, get_week_start d <= cutoff - 7 * 13 ->
                get summary (get_week_start d) = None).
Proof.
  intros H cutoff. apply best_8_inv in H. destruct H as (Hs & Hb & Ht).
  fold cutoff in Hs.
  assert (Hget : forall week, get summary week =
            if in_window cutoff week
            then get (summarize_weeks attendance) week else None).
  { intros week. rewrite Hs. apply get_summarize_window. }
  split; [exact Hs|]. split.
  { rewrite Ht, Hb. apply best_8_total_top. }
  split; [exact Hget|]. split; [|split].
  - intros d Hd. rewrite Hget, Hd. unfold in_window.
    rewrite Z.ltb_irrefl, andb_false_r. reflexivity.
  - intros d Hin Hd. rewrite Hget.
    replace (in_window cutoff (get_week_start d)) with true.
    2:{ symmetry. unfold in_window. apply andb_true_iff.
        rewrite Z.leb_le, Z.ltb_lt. lia. }
    rewrite get_summarize_weeks.
    assert (Hd' : In d (days_in_week attendance (get_week_start d))).
    { apply filter_In; split; [exact Hin | apply Z.eqb_refl]. }
    destruct (days_in_week attendance (get_week_start d)) eqn:E; [contradiction|].
    split; [reflexivity|]. rewrite len_cons. pose proof (len_nonneg l). lia.
  - intros d Hd. rewrite Hget.
    replace (in_window cutoff (get_week_start d)) with false; [reflexivity|].
    symmetry. unfold in_window. apply andb_false_iff. left. apply Z.leb_gt. lia.
Qed.

Lemma best_8_window_witness :
  best_8_week_attendance [738796; 738802; 738795; 738797; 738886] 738886
  = Some (1, [(738802, 1)], [(738802, 1)])
  /\ get [(738802, 1)] (get_week_start 738796) = None
  /\ get [(738802, 1)] (get_week_start 738802) = Some 1
  /\ get [(738802, 1)] (get_week_start 738886) = None.
Proof.
  split; [reflexivity|].
  pose proof (best_8_window [738796; 738802; 738795; 738797; 738886] 738886
                1 [(738802, 1)] [(738802, 1)] eq_refl) as H.
  cbv zeta in H. destruct H as (_ & _ & _ & Hcut & Hin & Hout).
  split; [apply Hout; vm_compute; discriminate|].
  split; [apply (Hin 738802); [simpl; tauto | reflexivity]|].
  apply Hcut; reflexivity.
Defined.

Lemma filter_perm {A} (f : A -> bool) (l l' : list A) :
  Permutation l l' -> Permutation (filter f l) (filter f l').
Proof.
  induction 1 as [|x l l' Hp IH|x y l|l l' l'' H1 IH1 H2 IH2]; simpl.
  - constructor.
  - destruct (f x); [now constructor | exact IH].
  - destruct (f x), (f y); try reflexivity. apply perm_swap.
  - now transitivity (filter f l').
Qed.

Lemma length_keys_summary (cutoff : date) (attendance : list date) :
  length (summarize_weeks
            (filter (fun d => in_window cutoff (get_week_start d)) attendance))
  = length (weeks_with_attendance cutoff attendance).
Proof.
  set (l := filter _ attendance).
  transitivity (length (keys (summarize_weeks l))).
  { unfold keys; now rewrite length_map. }
  apply Permutation_length, NoDup_Permutation.
  - apply NoDup_keys_summarize_weeks.
  - apply NoDup_nodup.
  - intros k. unfold weeks_with_attendance. fold l.
    rewrite In_keys_summarize_weeks, nodup_In, in_map_iff.
    split; intros (d & H1 & H2); exists d; tauto.
Qed.

(** C7. Best-8 cap: the chosen list has at most 8 entries, all taken from
    the summary; the total is the sum of the counts of the chosen list; and
    when fewer than 8 distinct weeks of the window have attendance, the
    chosen list holds every one of them (it is the whole summary, reordered). *)
Theorem best_8_cap (attendance : list date) (reference_date : date)
      (total : Z) (summary : dict Z) (best_8 : list (date * Z)) :
  best_8_week_attendance attendance reference_date = Some (total, summary, best_8) ->
  (length best_8 <= 8)%nat
  /\ incl best_8 (items summary)
  /\ total = sum (map snd best_8)
  /\ ((length (weeks_with_attendance (get_week_start reference_date) attendance) < 8)%nat ->
      Permutation best_8 (items summary)
      /\ forall week,
           In week (weeks_with_attendance (get_week_start reference_date) attendance) ->
           exists n, In (week, n) best_8).
Proof.
  intros H. apply best_8_inv in H. destruct H as (Hs & Hb & Ht).
  split; [rewrite Hb; apply firstn_le_length|].
  split.
  { rewrite Hb. apply best_8_incl. }
  split; [exact Ht|].
  intros Hlt.
  assert (Hp : Permutation best_8 (items summary)).
  { rewrite Hb, firstn_all2; [apply sorted_perm|].
    rewrite sorted_length. unfold items. rewrite Hs, length_keys_summary. lia. }
  split; [exact Hp|].
  intros week Hw. unfold weeks_with_attendance in Hw.
  rewrite nodup_In in Hw.
  assert (Hk : In week (keys summary)).
  { rewrite Hs. apply In_keys_summarize_weeks.
    apply in_map_iff in Hw. destruct Hw as (d & H1 & H2). now exists d. }
  apply In_keys_get in Hk. destruct Hk as [n Hn]. exists n.
  apply Permutation_in with (l := items summary); [now symmetry|].
  now apply get_In.
Qed.

Lemma best_8_cap_witness :
  best_8_week_attendance [738796; 738802; 738795; 738797; 738886] 738886
  = Some (1, [(738802, 1)], [(738802, 1)])
  /\ (length [(738802, 1)]%Z <= 8)%nat
  /\ 1 = sum (map snd [(738802, 1)])
  /\ exists n, In (738802, n) [(738802, 1)].
Proof.
  split; [reflexivity|].
  pose proof (best_8_cap [738796; 738802; 738795; 738797; 738886] 738886
                1 [(738802, 1)] [(738802, 1)] eq_refl) as H.
  destruct H as (Hlen & _ & Hsum & Hall).
  split; [exact Hlen|]. split; [exact Hsum|].
  apply Hall; [vm_compute; lia | vm_compute; tauto].
Defined.

(** ** The largest sum of at most [k] counts *)

Lemma best_0 (l : list Z) : best 0 l = 0.
Proof. now destruct l. Qed.

Lemma best_nonneg (k : nat) (l : list Z) : 0 <= best k l.
Proof.
  revert k; induction l as [|v l IH]; intros [|k]; simpl; try lia.
  specialize (IH (S k)). lia.
Qed.

Lemma best_perm (k : nat) (l l' : list Z) :
  Permutation l l' -> best k l = best k l'.
Proof.
  intros H; revert k.
  induction H as [|x l l' Hp IH|x y l|l l' l'' H1 IH1 H2 IH2]; intros k.
  - reflexivity.
  - destruct k as [|k]; simpl; [reflexivity|].
    now rewrite (IH k), (IH (S k)).
  - destruct k as [|[|k]]; simpl; rewrite ?best_0; lia.
  - now rewrite IH1.
Qed.

Lemma best_le_cons (k : nat) (v : Z) (l : list Z) : best k l <= best k (v :: l).
Proof. destruct k; simpl; rewrite ?best_0; lia. Qed.

Lemma best_mono (k : nat) (l l' : list Z) :
  Forall2 Z.le l l' -> best k l <= best k l'.
Proof.
  intros H; revert k. induction H as [|x y l l' Hxy Hl IH]; intros k.
  - lia.
  - destruct k as [|k]; simpl; [lia|].
    pose proof (IH k). pose proof (IH (S k)). lia.
Qed.

Lemma sum_firstn_succ (v : Z) (k : nat) (l : list Z) :
  0 <= v -> Forall (fun y => v >= y) l ->
  sum (firstn (S k) l) <= v + sum (firstn k l).
Proof.
  intros Hv H; revert k. induction H as [|y l Hy Hl IH]; intros k.
  - rewrite !firstn_nil, sum_nil. lia.
  - destruct k as [|k].
    + cbn [firstn]. rewrite ?sum_cons, ?firstn_O, ?sum_nil. lia.
    + specialize (IH k). cbn [firstn] in *. rewrite !sum_cons in *. lia.
Qed.

(** On a descending list of non-negative counts the largest sum is the sum
    of the first [k] entries. *)
Lemma best_descending (k : nat) (l : list Z) :
  StronglySorted Z.ge l -> Forall (fun v => 0 <= v) l ->
  best k l = sum (firstn k l).
Proof.
  intros Hs; revert k. induction Hs as [|v l Hs IH Hv]; intros k Hpos.
  - destruct k; reflexivity.
  - destruct k as [|k]; [reflexivity|].
    inversion Hpos as [|? ? Hv0 Hl0]; subst.
    cbn [best firstn]. rewrite sum_cons, (IH k Hl0), (IH (S k) Hl0).
    pose proof (sum_firstn_succ v k l Hv0 Hv). lia.
Qed.

Lemma sum_top_is_best (k : nat) (l : list Z) :
  Forall (fun v => 0 <= v) l ->
  sum (firstn k (sorted desc l)) = best k l.
Proof.
  intros Hpos. rewrite <- best_descending.
  - apply best_perm, sorted_perm.
  - apply sorted_desc_sorted.
  - rewrite Forall_forall in *. intros x Hx. apply Hpos.
    apply Permutation_in with (l := sorted desc l); [apply sorted_perm | exact Hx].
Qed.

(** ** Monotonicity of the best-8 total *)

Lemma values_summarize_weeks (l : list date) :
  values (summarize_weeks l) = map (fun kv => len (snd kv)) (group_weeks l).
Proof. unfold values, summarize_weeks, items. now rewrite map_map. Qed.

Lemma values_summarize_weeks_pos (l : list date) :
  Forall (fun v => 0 <= v) (values (summarize_weeks l)).
Proof.
  rewrite values_summarize_weeks. apply Forall_forall. intros v Hv.
  apply in_map_iff in Hv. destruct Hv as (kv & <- & _). apply len_nonneg.
Qed.

Lemma best_8_total_is_best (attendance : list date) (reference_date : date)
      (total : Z) (summary : dict Z) (best_8 : list (date * Z)) :
  best_8_week_attendance attendance reference_date = Some (total, summary, best_8) ->
  total = best 8 (values (summarize_weeks
            (filter (fun d => in_window (get_week_start reference_date)
                                        (get_week_start d)) attendance))).
Proof.
  intros H. apply best_8_inv in H. destruct H as (Hs & Hb & Ht).
  rewrite Ht, Hb, best_8_total_top, Hs.
  apply sum_top_is_best, values_summarize_weeks_pos.
Qed.

(** The summary of a set does not depend on the order in which the set is
    iterated, up to the order of its entries. *)
Lemma summarize_weeks_perm (l l' : list date) :
  Permutation l l' -> Permutation (summarize_weeks l) (summarize_weeks l').
Proof.
  intros Hp. apply NoDup_Permutation.
  - apply NoDup_map_inv with (f := fst), NoDup_keys_summarize_weeks.
  - apply NoDup_map_inv with (f := fst), NoDup_keys_summarize_weeks.
  - intros [k n]. pose proof (In_items_summarize_weeks l k n) as H1.
    pose proof (In_items_summarize_weeks l' k n) as H2.
    unfold items in *. rewrite H1, H2.
    assert (Hlen : len (days_in_week l k) = len (days_in_week l' k)).
    { unfold len, days_in_week. f_equal.
      apply Permutation_length, filter_perm, Hp. }
    rewrite Hlen. tauto.
Qed.

(** Recording one more date never lowers the largest sum of [k] counts. *)
Lemma best_setdefault_append (k : nat) (g : dict (list date)) (week d : date) :
  best k (map (fun kv => len (snd kv)) g)
  <= best k (map (fun kv => len (snd kv)) (setdefault_append g week d)).
Proof.
  revert k. induction g as [|[k0 v0] g IH]; intros k.
  - cbn [setdefault_append map]. apply best_le_cons.
  - simpl setdefault_append. destruct (k0 =? week).
    + apply best_mono. simpl map. constructor.
      * rewrite len_app, len_cons, len_nil. lia.
      * clear. induction g; constructor; [lia | assumption].
    + destruct k as [|k]; simpl; [lia|].
      pose proof (IH k). pose proof (IH (S k)). lia.
Qed.

(** C6. Best-8 monotonicity: for a fixed reference date, when the
    attendance set [S'] is the set [S] with one more date [d], whatever the
    order in which either set is iterated, the best-8 total on [S'] is at
    least the best-8 total on [S]. *)
Theorem best_8_monotone (S S' : list date) (d reference_date : date)
      (total total' : Z) (summary summary' : dict Z)
      (best_8 best_8' : list (date * Z)) :
  NoDup S -> NoDup S' -> ~ In d S ->
  (forall x, In x S' <-> x = d \/ In x S) ->
  best_8_week_attendance S reference_date = Some (total, summary, best_8) ->
  best_8_week_attendance S' reference_date = Some (total', summary', best_8') ->
  total <= total'.
Proof.
  intros HS HS' Hd Hel H H'.
  apply best_8_total_is_best in H, H'. subst total total'.
  set (w := fun x => in_window (get_week_start reference_date) (get_week_start x)).
  assert (Hp : Permutation S' (S ++ [d])).
  { apply NoDup_Permutation; [exact HS'| |].
    - apply Permutation_NoDup with (l := d :: S);
        [apply Permutation_cons_append | now constructor].
    - intros x. rewrite Hel, in_app_iff. simpl. intuition congruence. }
  rewrite (best_perm 8 (values (summarize_weeks (filter w S')))
                       (values (summarize_weeks (filter w (S ++ [d]))))).
  2:{ unfold values. apply Permutation_map, summarize_weeks_perm, filter_perm, Hp. }
  rewrite filter_app. simpl. destruct (w d).
  - rewrite !values_summarize_weeks, group_weeks_snoc.
    apply best_setdefault_append.
  - rewrite app_nil_r. lia.
Qed.

Lemma best_8_monotone_witness :
  best_8_week_attendance [738802] 738886 = Some (1, [(738802, 1)], [(738802, 1)])
  /\ best_8_week_attendance [738803; 738802] 738886
     = Some (2, [(738802, 2)], [(738802, 2)])
  /\ 1 <= 2.
Proof.
  split; [reflexivity|]. split; [reflexivity|].
  apply (best_8_monotone [738802] [738803; 738802] 738803 738886
           1 2 [(738802, 1)] [(738802, 2)] [(738802, 1)] [(738802, 2)]).
  - repeat constructor; simpl; tauto.
  - repeat constructor; simpl; intuition discriminate.
  - simpl; intuition discriminate.
  - intros x; simpl; intuition congruence.
  - reflexivity.
  - reflexivity.
Defined.

(** ** Future allocation planner *)

Lemma allocate_items (ooo_days weeks : list date) (plan : dict Z) (shortfall : Z) :
  NoDup (keys plan ++ weeks) ->
  fst (allocate ooo_days weeks plan shortfall)
  = plan ++ allocated_items ooo_days weeks shortfall.
Proof.
  revert plan shortfall. induction weeks as [|week rest IH]; intros plan s Hnd.
  - simpl. now rewrite app_nil_r.
  - cbn [allocate allocated_items]. cbv zeta.
    set (a := Z.min (Z.min 3 (5 - ooo_count ooo_days week)) s).
    assert (Hfresh : ~ In week (keys plan)).
    { apply NoDup_remove_2 in Hnd. intros Hin; apply Hnd, in_or_app; now left. }
    rewrite (set_fresh plan week a Hfresh).
    destruct (s - a <=? 0); [reflexivity|].
    rewrite IH.
    + now rewrite <- app_assoc.
    + unfold keys in *. rewrite map_app, <- app_assoc. exact Hnd.
Qed.

Lemma keys_allocated_items (ooo_days weeks : list date) (shortfall : Z) :
  keys (allocated_items ooo_days weeks shortfall)
  = firstn (length (allocated_items ooo_days weeks shortfall)) weeks.
Proof.
  revert shortfall. induction weeks as [|week rest IH]; intros s.
  - reflexivity.
  - cbn [allocated_items]. cbv zeta.
    destruct (_ <=? 0); simpl; [reflexivity|].
    f_equal. apply IH.
Qed.

Lemma mem_In {V} (m : dict V) (k : date) : mem m k = true <-> In k (keys m).
Proof.
  unfold mem. rewrite In_keys_get. destruct (get m k) as [v|].
  - split; [now exists v | reflexivity].
  - split; [discriminate | intros [v [=]]].
Qed.

Lemma fill_rest_present (weeks : list date) (plan : dict Z) :
  (forall w, In w weeks -> In w (keys plan)) -> fill_rest weeks plan = plan.
Proof.
  unfold fill_rest. induction weeks as [|week rest IH]; intros H; simpl.
  - reflexivity.
  - replace (mem plan week) with true.
    + apply IH. intros w Hw; apply H; now right.
    + symmetry. apply mem_In, H. now left.
Qed.

Lemma fill_rest_fresh (weeks : list date) (plan : dict Z) :
  NoDup (keys plan ++ weeks) ->
  fill_rest weeks plan = plan ++ map (fun w => (w, 0)) weeks.
Proof.
  unfold fill_rest. revert plan.
  induction weeks as [|week rest IH]; intros plan Hnd; simpl.
  - now rewrite app_nil_r.
  - assert (Hfresh : ~ In week (keys plan)).
    { apply NoDup_remove_2 in Hnd. intros Hin; apply Hnd, in_or_app; now left. }
    replace (mem plan week) with false.
    2:{ symmetry. apply not_true_is_false. now rewrite mem_In. }
    rewrite set_fresh by exact Hfresh. rewrite IH.
    + now rewrite <- app_assoc.
    + unfold keys in *. rewrite map_app, <- app_assoc. exact Hnd.
Qed.

Lemma fill_rest_allocated (ooo_days weeks : list date) (shortfall : Z) :
  NoDup weeks ->
  let plan := allocated_items ooo_days weeks shortfall in
  fill_rest weeks plan = plan ++ map (fun w => (w, 0)) (skipn (length plan) weeks).
Proof.
  intros Hnd plan.
  pose proof (keys_allocated_items ooo_days weeks shortfall) as Hk. fold plan in Hk.
  replace (fill_rest weeks plan)
    with (fill_rest (skipn (length plan) weeks)
                    (fill_rest (firstn (length plan) weeks) plan)).
  2:{ unfold fill_rest. now rewrite <- fold_left_app, firstn_skipn. }
  rewrite (fill_rest_present (firstn (length plan) weeks) plan)
    by (intros w Hw; now rewrite Hk).
  apply fill_rest_fresh. rewrite Hk, firstn_skipn. exact Hnd.
Qed.

Lemma ascending_NoDup (l : list Z) : Sorted Z.lt l -> NoDup l.
Proof.
  intros H. apply Sorted_StronglySorted in H; [|intros x y z; lia].
  induction H as [|x l Hs IH Hx]; constructor; [|exact IH].
  intros Hin. rewrite Forall_forall in Hx. specialize (Hx _ Hin). lia.
Qed.

Lemma HdRel_map {A B} (f : A -> B) (R : A -> A -> Prop) (R' : B -> B -> Prop) x l :
  (forall y, R x y -> R' (f x) (f y)) -> HdRel R x l -> HdRel R' (f x) (map f l).
Proof. intros Hf [|y l' Hxy]; simpl; constructor; auto. Qed.

Lemma range_ascending (lo hi : Z) : Sorted Z.lt (range lo hi).
Proof.
  unfold range. generalize (Z.to_nat (hi - lo)) as n. generalize 0%nat as a.
  intros a n; revert a. induction n as [|n IH]; intros a; simpl.
  - constructor.
  - constructor; [apply IH|].
    destruct n; simpl; constructor. lia.
Qed.

Lemma candidate_weeks_ascending (today reference_date : date) :
  Sorted Z.lt (candidate_weeks today reference_date).
Proof.
  unfold candidate_weeks. cbv zeta.
  generalize (range_ascending 0
    (days_between (get_week_start (reference_date + 7 * 5)) (get_week_start today) / 7 + 1)).
  generalize (range 0
    (days_between (get_week_start (reference_date + 7 * 5)) (get_week_start today) / 7 + 1)).
  induction 1 as [|w l Hs IH Hhd]; cbn [map]; constructor; [exact IH|].
  apply (HdRel_map (fun w => get_week_start today + 7 * w) Z.lt Z.lt);
    [intros; lia | exact Hhd].
Qed.

Lemma ascending_items_sorted (m : dict Z) :
  Sorted Z.lt (keys m) -> Sorted (fun x y => item_leb x y = true) (items m).
Proof.
  unfold items, keys. induction m as [|[k v] m IH]; simpl; intros H.
  - constructor.
  - inversion H as [|? ? Hs Hhd]; subst. constructor; [now apply IH|].
    destruct m as [|[k' v'] m]; constructor.
    inversion Hhd; subst. unfold item_leb. simpl in *.
    apply orb_true_iff; left. now apply Z.ltb_lt.
Qed.

(** The plan returned, in closed form: the allocations of the loop, then
    zero for every candidate week the loop did not reach. *)
Lemma calculate_future_needs_inv (today : date) (summary : dict Z)
      (ooo_days : list date) (reference_date : date) (plan : dict Z) :
  calculate_future_needs today summary ooo_days reference_date = Some plan ->
  let weeks := candidate_weeks today reference_date in
  let reached := allocated_items ooo_days weeks (initial_shortfall summary) in
  plan = reached ++ map (fun w => (w, 0)) (skipn (length reached) weeks)
  /\ keys plan = weeks.
Proof.
  unfold calculate_future_needs. cbv zeta.
  destruct (add_days reference_date (7 * 5)) as [ref5|] eqn:Href; cbn [bind];
    [|discriminate].
  apply add_days_Some in Href. subst ref5.
  destruct (mapM _ _) as [weeks|] eqn:Hweeks; cbn [bind]; [|discriminate].
  apply mapM_map with (g := fun w => get_week_start today + 7 * w) in Hweeks.
  2:{ intros a b _ Hb. now apply add_days_Some in Hb. }
  fold (candidate_weeks today reference_date) in Hweeks.
  fold (initial_shortfall summary).
  pose proof (candidate_weeks_ascending today reference_date) as Hasc.
  rewrite <- Hweeks in Hasc |- *.
  pose proof (ascending_NoDup weeks Hasc) as Hnd.
  rewrite allocate_items by exact Hnd. cbn [app].
  rewrite fill_rest_allocated by exact Hnd.
  set (reached := allocated_items ooo_days weeks (initial_shortfall summary)).
  assert (Hkeys : keys (reached ++ map (fun w => (w, 0)) (skipn (length reached) weeks))
                  = weeks).
  { unfold keys. rewrite map_app, map_map. simpl. rewrite map_id.
    fold (keys reached). unfold reached at 1.
    rewrite keys_allocated_items. apply firstn_skipn. }
  rewrite sorted_already.
  2:{ apply ascending_items_sorted. now rewrite Hkeys. }
  unfold items. rewrite of_items_id by (rewrite Hkeys; exact Hnd).
  intros [= <-]. split; [reflexivity | exact Hkeys].
Qed.

(** The planner returns whenever the date five weeks after the reference
    date exists: it raises only for the last five weeks of year 9999. *)
Lemma calculate_future_needs_returns (today : date) (summary : dict Z)
      (ooo_days : list date) (reference_date : date) :
  valid today -> valid (reference_date + 7 * 5) ->
  exists plan, calculate_future_needs today summary ooo_days reference_date = Some plan.
Proof.
  intros Ht Hr. unfold calculate_future_needs. cbv zeta.
  rewrite add_days_in_range by exact Hr. cbn [bind].
  rewrite mapM_total with (g := fun w => get_week_start today + 7 * w).
  - cbn [bind]. eexists; reflexivity.
  - intros w Hw. apply range_In in Hw. apply add_days_in_range.
    destruct (get_week_start_no_overflow today Ht) as [_ Hs].
    pose proof (week_start_bounds (reference_date + 7 * 5)) as He.
    unfold days_between, valid in *.
    set (e := get_week_start (reference_date + 7 * 5)) in *.
    set (s := get_week_start today) in *.
    assert (7 * ((e - s) / 7) <= e - s) by (apply Z.mul_div_le; lia).
    lia.
Qed.

Lemma In_candidate_weeks (today reference_date week : date) :
  In week (candidate_weeks today reference_date) <->
  weekday week = 0
  /\ get_week_start today <= week <= get_week_start (reference_date + 7 * 5).
Proof.
  unfold candidate_weeks, days_between. cbv zeta.
  set (s := get_week_start today). set (e := get_week_start (reference_date + 7 * 5)).
  assert (Hs : weekday s = 0) by apply weekday_week_start.
  assert (He : weekday e = 0) by apply weekday_week_start.
  assert (Hdiv : 7 * ((e - s) / 7) <= e - s < 7 * ((e - s) / 7) + 7).
  { pose proof (Z.div_mod (e - s) 7 ltac:(lia)).
    pose proof (Z.mod_pos_bound (e - s) 7 ltac:(lia)). lia. }
  rewrite in_map_iff. split.
  - intros (w & <- & Hw). apply range_In in Hw.
    rewrite weekday_add_weeks. split; [exact Hs | lia].
  - intros (Hw & Hlo & Hhi).
    destruct (monday_diff week s Hw Hs) as [w ->].
    exists w. split; [reflexivity|]. apply range_In. lia.
Qed.

Lemma values_zero_items (l : list date) :
  sum (values (map (fun w => (w, 0)) l)) = 0.
Proof.
  unfold values. rewrite map_map. cbn [snd].
  induction l as [|w l IH]; cbn [map]; rewrite ?sum_nil, ?sum_cons; lia.
Qed.

(** The loop hands out the whole shortfall when the weeks have room for it. *)
Lemma sum_allocated_items (ooo_days weeks : list date) (shortfall : Z) :
  0 <= shortfall ->
  shortfall <= sum (map (capacity ooo_days) weeks) ->
  sum (values (allocated_items ooo_days weeks shortfall)) = shortfall.
Proof.
  unfold values, capacity.
  revert shortfall. induction weeks as [|week rest IH]; intros s Hs Hcap.
  - cbn [map allocated_items] in *. rewrite sum_nil in *. lia.
  - cbn [map allocated_items] in *. cbv zeta. rewrite sum_cons in *. cbn [snd].
    set (c := Z.min 3 (5 - ooo_count ooo_days week)) in *.
    destruct (Z.leb_spec (s - Z.min c s) 0) as [Hle|Hgt].
    + cbn [map]. rewrite sum_nil. lia.
    + rewrite IH; lia.
Qed.

(** The upper bound holds for every input. *)
Lemma allocated_items_at_most_3 (ooo_days weeks : list date) (shortfall : Z) :
  Forall (fun kv => snd kv <= 3) (allocated_items ooo_days weeks shortfall).
Proof.
  revert shortfall. induction weeks as [|week rest IH]; intros s.
  - constructor.
  - cbn [allocated_items]. cbv zeta. constructor; [cbn [snd]; lia|].
    destruct (_ <=? 0); [constructor | apply IH].
Qed.

(** The lower bound needs every week to have at most 5 out-of-office days. *)
Lemma allocated_items_nonneg (ooo_days weeks : list date) (shortfall : Z) :
  0 <= shortfall ->
  (forall week, In week weeks -> ooo_count ooo_days week <= 5) ->
  Forall (fun kv => 0 <= snd kv) (allocated_items ooo_days weeks shortfall).
Proof.
  revert shortfall. induction weeks as [|week rest IH]; intros s Hs Hooo.
  - constructor.
  - cbn [allocated_items]. cbv zeta.
    assert (ooo_count ooo_days week <= 5) by (apply Hooo; now left).
    constructor; [cbn [snd]; lia|].
    destruct (_ <=? 0); [constructor|].
    apply IH; [lia|]. intros w Hw; apply Hooo; now right.
Qed.

Lemma initial_shortfall_nonneg (summary : dict Z) : 0 <= initial_shortfall summary.
Proof. unfold initial_shortfall; lia. Qed.

(** With at most 5 out-of-office days in every candidate week, every value
    of the plan is between 0 and 3; the upper bound 3 holds in any case. *)
Lemma plan_values_in_range (today : date) (summary : dict Z)
      (ooo_days : list date) (reference_date : date) (plan : dict Z) :
  calculate_future_needs today summary ooo_days reference_date = Some plan ->
  (forall week n, In (week, n) (items plan) -> n <= 3)
  /\ ((forall week, In week (candidate_weeks today reference_date) ->
                   ooo_count ooo_days week <= 5) ->
      forall week n, In (week, n) (items plan) -> 0 <= n <= 3).
Proof.
  intros H. apply calculate_future_needs_inv in H. cbv zeta in H.
  destruct H as [Hplan _]. unfold items.
  assert (Hup : forall week n, In (week, n) plan -> n <= 3).
  { intros week n Hin. rewrite Hplan in Hin. apply in_app_or in Hin.
    destruct Hin as [Hin|Hin].
    - pose proof (allocated_items_at_most_3 ooo_days
                    (candidate_weeks today reference_date)
                    (initial_shortfall summary)) as Hf.
      rewrite Forall_forall in Hf. apply (Hf _ Hin).
    - apply in_map_iff in Hin. destruct Hin as (w & [= _ <-] & _). lia. }
  split; [exact Hup|].
  intros Hooo week n Hin. split; [|now apply (Hup week)].
  rewrite Hplan in Hin. apply in_app_or in Hin. destruct Hin as [Hin|Hin].
  - pose proof (allocated_items_nonneg ooo_days
                  (candidate_weeks today reference_date)
                  (initial_shortfall summary)
                  (initial_shortfall_nonneg summary) Hooo) as Hf.
    rewrite Forall_forall in Hf. apply (Hf _ Hin).
  - apply in_map_iff in Hin. destruct Hin as (w & [= _ <-] & _). lia.
Qed.

(** C1. The plan can hold a negative value: on Monday 2024-01-01, with no
    attendance, six out-of-office dates in the current week (Monday
    2024-01-01 to Saturday 2024-01-06) and reference date 2024-01-08, the
    capacity of the first week is min(3, 5 - 6) = -1 and the planner
    suggests -1 office days for it. *)
Theorem plan_negative_allocation :
  calculate_future_needs 738886 []
    [738886; 738887; 738888; 738889; 738890; 738891] 738893
  = Some [(738886, -1); (738893, 3); (738900, 3); (738907, 3); (738914, 3);
          (738921, 3); (738928, 3)].
Proof. reflexivity. Qed.

(** C3. Allocation exhausts the shortfall when capacity allows: when the
    capacities min(3, 5 - oooCount(week)) of the candidate weeks add up to
    at least the shortfall max(24 - top-8 sum of the summary, 0), the values
    of the returned plan add up to exactly that shortfall. *)
Theorem plan_exhausts_shortfall (today : date) (summary : dict Z)
      (ooo_days : list date) (reference_date : date) (plan : dict Z) :
  calculate_future_needs today summary ooo_days reference_date = Some plan ->
  Z.max (POLICY_DAYS_REQUIRED - sum (firstn 8 (sorted desc (values summary)))) 0
  <= sum (map (fun week => Z.min 3 (5 - ooo_count ooo_days week))
              (candidate_weeks today reference_date)) ->
  sum (values plan)
  = Z.max (POLICY_DAYS_REQUIRED - sum (firstn 8 (sorted desc (values summary)))) 0.
Proof.
  intros H Hcap. apply calculate_future_needs_inv in H. cbv zeta in H.
  destruct H as [Hplan _]. rewrite Hplan.
  fold (initial_shortfall summary) in Hcap |- *.
  unfold values. rewrite map_app, sum_app.
  fold (values (allocated_items ooo_days (candidate_weeks today reference_date)
                                (initial_shortfall summary))).
  rewrite sum_allocated_items.
  - pose proof (values_zero_items
      (skipn (length (allocated_items ooo_days (candidate_weeks today reference_date)
                                      (initial_shortfall summary)))
             (candidate_weeks today reference_date))) as Hz.
    unfold values in Hz. rewrite Hz. lia.
  - apply initial_shortfall_nonneg.
  - exact Hcap.
Qed.

Lemma plan_exhausts_shortfall_witness :
  calculate_future_needs 738886 [(738795, 3); (738802, 1)] [] 738893
  = Some [(738886, 3); (738893, 3); (738900, 3); (738907, 3); (738914, 3);
          (738921, 3); (738928, 2)]
  /\ sum (values [(738886, 3); (738893, 3); (738900, 3); (738907, 3);
                  (738914, 3); (738921, 3); (738928, 2)]) = 20.
Proof.
  split; [reflexivity|].
  apply (plan_exhausts_shortfall 738886 [(738795, 3); (738802, 1)] [] 738893).
  - reflexivity.
  - vm_compute. discriminate.
Defined.

(** C8. Keys of the plan: the keys of the returned plan are exactly the
    candidate weeks [start_week + 7 * w] for [w] in [range(num_weeks)], in
    that (ascending) order, that is every Monday from the week-start of
    today through the week-start of the reference date plus 5 weeks; the
    weeks the allocation loop did not reach hold 0; and when the
    elapsed-weeks count is zero or negative the plan is empty. *)
Theorem plan_keys (today : date) (summary : dict Z)
      (ooo_days : list date) (reference_date : date) (plan : dict Z) :
  calculate_future_needs today summary ooo_days reference_date = Some plan ->
  let start_week := get_week_start today in
  let end_week := get_week_start (reference_date + 7 * 5) in
  let num_weeks := days_between end_week start_week / 7 + 1 in
  let reached :=
    allocated_items ooo_days (keys plan)
      (Z.max (POLICY_DAYS_REQUIRED - sum (firstn 8 (sorted desc (values summary)))) 0) in
  keys plan = map (fun w => start_week + 7 * w) (range 0 num_weeks)
  /\ (forall week, In week (keys plan) <->
                   weekday week = 0 /\ start_week <= week <= end_week)
  /\ StronglySorted Z.lt (keys plan)
  /\ plan = reached ++ map (fun w => (w, 0)) (skipn (length reached) (keys plan))
  /\ (num_weeks <= 0 -> plan = []).
Proof.
  intros H. apply calculate_future_needs_inv in H. cbv zeta in H.
  destruct H as [Hplan Hkeys]. cbv zeta.
  fold (initial_shortfall summary). rewrite Hkeys.
  split; [reflexivity|].
  split; [intros week; apply In_candidate_weeks|].
  split.
  { apply Sorted_StronglySorted; [intros x y z; lia|].
    apply candidate_weeks_ascending. }
  split; [exact Hplan|].
  intros Hn. rewrite Hplan. unfold candidate_weeks. cbv zeta.
  unfold range. replace (Z.to_nat _) with 0%nat by lia. reflexivity.
Qed.

Lemma plan_keys_witness :
  calculate_future_needs 738886 [(738795, 3); (738802, 1)] [] 738893
  = Some [(738886, 3); (738893, 3); (738900, 3); (738907, 3); (738914, 3);
          (738921, 3); (738928, 2)]
  /\ keys [(738886, 3); (738893, 3); (738900, 3); (738907, 3); (738914, 3);
           (738921, 3); (738928, 2)]
     = map (fun w => 738886 + 7 * w) (range 0 7).
Proof.
  split; [reflexivity|].
  pose proof (plan_keys 738886 [(738795, 3); (738802, 1)] [] 738893 _ eq_refl) as H.
  cbv zeta in H. destruct H as (Hk & _). exact Hk.
Defined.

(** ** Dependence on the clock *)

Lemma ooo_count_perm (ooo_days ooo_days' : list date) (week : date) :
  Permutation ooo_days ooo_days' ->
  ooo_count ooo_days week = ooo_count ooo_days' week.
Proof.
  intros Hp. unfold ooo_count, len. f_equal.
  apply Permutation_length, filter_perm, Hp.
Qed.

Lemma allocate_ext (ooo_days ooo_days' weeks : list date) (plan : dict Z) (shortfall : Z) :
  (forall week, ooo_count ooo_days week = ooo_count ooo_days' week) ->
  allocate ooo_days weeks plan shortfall = allocate ooo_days' weeks plan shortfall.
Proof.
  intros Hc. revert plan shortfall.
  induction weeks as [|week rest IH]; intros plan s; cbn [allocate]; [reflexivity|].
  cbv zeta. rewrite Hc. destruct (_ <=? 0); [reflexivity | apply IH].
Qed.

(** The plan changes with the day on which the planner is called: for the
    same arguments (no attendance, no out-of-office day, reference date
    2024-01-08), a call on 2024-01-01 and a call on 2024-01-08 return
    different plans.  So the planner is not a function of its declared
    arguments alone. *)
Lemma plan_depends_on_today :
  ~ (forall today today' summary ooo_days reference_date,
        calculate_future_needs today summary ooo_days reference_date
        = calculate_future_needs today' summary ooo_days reference_date).
Proof.
  intros H. specialize (H 738886 738893 [] [] 738893). vm_compute in H.
  discriminate H.
Qed.

(** C4 (amended). The planner is a function of its arguments and of the
    current calendar date, which it reads from the clock: two calls made on
    the same day with equal arguments (summaries with the same entries, sets
    of out-of-office dates with the same elements, in whatever order either
    is stored, and the same reference date) return equal plans. *)
Theorem plan_deterministic (today : date) (summary summary' : dict Z)
      (ooo_days ooo_days' : list date) (reference_date : date) :
  Permutation summary summary' -> Permutation ooo_days ooo_days' ->
  calculate_future_needs today summary ooo_days reference_date
  = calculate_future_needs today summary' ooo_days' reference_date.
Proof.
  intros Hs Ho. unfold calculate_future_needs. cbv zeta.
  destruct (add_days reference_date (7 * 5)) as [ref5|]; cbn [bind]; [|reflexivity].
  destruct (mapM _ _) as [weeks|]; cbn [bind]; [|reflexivity].
  rewrite (sorted_desc_perm (values summary) (values summary'))
    by (unfold values; now apply Permutation_map).
  rewrite (allocate_ext ooo_days ooo_days')
    by (intros week; now apply ooo_count_perm).
  reflexivity.
Qed.

Lemma plan_deterministic_witness :
  calculate_future_needs 738886 [(738795, 3); (738802, 1)] [738887; 738894] 738893
  = calculate_future_needs 738886 [(738802, 1); (738795, 3)] [738894; 738887] 738893.
Proof.
  apply plan_deterministic; apply perm_swap.
Defined.

(** ** Week-starts as keys *)

Lemma week_start_fixed_point (week : date) :
  (exists d, get_week_start d = week) ->
  get_week_start week = week /\ weekday week = 0.
Proof.
  intros [d <-]. split; [apply week_start_monday|]; apply weekday_week_start.
Qed.

(** C10. Every key the engine produces is a canonical Monday week-start, a
    fixed point of [get_week_start] with weekday index 0: the keys of the
    summarizer's output, the keys of the selector's summary and the weeks of
    its chosen list, and the keys of the planner's plan. *)
Theorem keys_are_week_starts :
  (forall S week,
      In week (keys (summarize_weeks S)) ->
      get_week_start week = week /\ weekday week = 0)
  /\ (forall attendance reference_date total summary best_8 week,
         best_8_week_attendance attendance reference_date
         = Some (total, summary, best_8) ->
         In week (keys summary) \/ In week (map fst best_8) ->
         get_week_start week = week /\ weekday week = 0)
  /\ (forall today summary ooo_days reference_date plan week,
         calculate_future_needs today summary ooo_days reference_date = Some plan ->
         In week (keys plan) ->
         get_week_start week = week /\ weekday week = 0).
Proof.
  split; [|split].
  - intros S week Hin. apply week_start_fixed_point.
    apply In_keys_summarize_weeks in Hin. destruct Hin as (d & _ & Hd). now exists d.
  - intros attendance reference_date total summary best_8 week H Hin.
    apply best_8_inv in H. destruct H as (Hs & Hb & _).
    assert (Hk : In week (keys summary)).
    { destruct Hin as [Hin|Hin]; [exact Hin|].
      apply in_map_iff in Hin. destruct Hin as ([k n] & <- & Hkn).
      rewrite Hb in Hkn. apply best_8_incl in Hkn. change (fst (k, n)) with k.
      unfold keys. apply in_map_iff. now exists (k, n). }
    apply week_start_fixed_point. rewrite Hs in Hk.
    apply In_keys_summarize_weeks in Hk. destruct Hk as (d & _ & Hd). now exists d.
  - intros today summary ooo_days reference_date plan week H Hin.
    apply calculate_future_needs_inv in H. cbv zeta in H. destruct H as [_ Hk].
    rewrite Hk in Hin. apply In_candidate_weeks in Hin. destruct Hin as [Hw _].
    split; [now apply week_start_monday | exact Hw].
Qed.

Lemma keys_are_week_starts_witness :
  best_8_week_attendance [738796; 738802; 738795; 738797; 738886] 738886
  = Some (1, [(738802, 1)], [(738802, 1)])
  /\ calculate_future_needs 738886 [(738802, 1)] [] 738893
     = Some [(738886, 3); (738893, 3); (738900, 3); (738907, 3); (738914, 3);
             (738921, 3); (738928, 3)]
  /\ (get_week_start 738802 = 738802 /\ weekday 738802 = 0)
  /\ (get_week_start 738928 = 738928 /\ weekday 738928 = 0).
Proof.
  split; [reflexivity|]. split; [reflexivity|].
  destruct keys_are_week_starts as (_ & Hsel & Hplan). split.
  - apply (Hsel [738796; 738802; 738795; 738797; 738886] 738886
             1 [(738802, 1)] [(738802, 1)] 738802 eq_refl).
    left; simpl; tauto.
  - apply (Hplan 738886 [(738802, 1)] [] 738893 _ 738928 eq_refl).
    simpl; tauto.
Defined.


(** * Further properties of the code *)

(** ** Week bucketing *)

Lemma week_start_div (d : date) : get_week_start d = 7 * ((d + 6) / 7) - 6.
Proof.
  unfold get_week_start, weekday.
  pose proof (Z.div_mod (d + 6) 7 ltac:(lia)). lia.
Qed.

Lemma week_start_unique (d m : date) :
  weekday m = 0 -> m <= d < m + 7 -> m = get_week_start d.
Proof.
  intros Hm Hd.
  destruct (monday_diff m (get_week_start d) Hm (weekday_week_start d)) as [w Hw].
  pose proof (week_start_bounds d). lia.
Qed.

Lemma week_start_add_weeks (d w : Z) :
  get_week_start (d + 7 * w) = get_week_start d + 7 * w.
Proof. unfold get_week_start. rewrite weekday_add_weeks. lia. Qed.

(** X1. [get_week_start d] is the latest Monday that is not after [d]: it
    is a Monday, it lies in the 7 days ending at [d], and it is the only
    Monday there. *)
Theorem week_start_latest_monday (d : date) :
  weekday (get_week_start d) = 0
  /\ get_week_start d <= d < get_week_start d + 7
  /\ d = get_week_start d + weekday d
  /\ forall m, weekday m = 0 -> m <= d < m + 7 -> m = get_week_start d.
Proof.
  split; [apply weekday_week_start|].
  split; [pose proof (week_start_bounds d); lia|].
  split; [unfold get_week_start; lia|].
  intros m; apply week_start_unique.
Qed.

(** X2. On a date Python can represent, the subtraction of
    [get_week_start] never raises [OverflowError], and the result is again a
    date Python can represent: 0001-01-01 is itself a Monday. *)
Theorem week_start_never_overflows (d : date) :
  valid d ->
  sub_days d (weekday d) = Some (get_week_start d) /\ valid (get_week_start d).
Proof. apply get_week_start_no_overflow. Qed.

Lemma week_start_never_overflows_witness :
  valid 1 /\ sub_days 1 (weekday 1) = Some (get_week_start 1)
  /\ valid (get_week_start 1).
Proof.
  assert (H : valid 1) by (unfold valid, MAXORDINAL; lia).
  split; [exact H | exact (week_start_never_overflows 1 H)].
Defined.

(** X3. Bucketing keeps the order of dates, and two dates have the same
    week-start exactly when the later one is less than 7 days after the
    week-start of the earlier one. *)
Theorem week_start_monotone (d d' : date) :
  d <= d' ->
  get_week_start d <= get_week_start d'
  /\ (get_week_start d = get_week_start d' <-> d' < get_week_start d + 7).
Proof.
  intros Hle. rewrite !week_start_div.
  assert (Hdiv : (d + 6) / 7 <= (d' + 6) / 7) by (apply Z.div_le_mono; lia).
  split; [lia|].
  pose proof (Z.div_mod (d + 6) 7 ltac:(lia)).
  pose proof (Z.mod_pos_bound (d + 6) 7 ltac:(lia)).
  pose proof (Z.div_mod (d' + 6) 7 ltac:(lia)).
  pose proof (Z.mod_pos_bound (d' + 6) 7 ltac:(lia)).
  split; intros; lia.
Qed.

Lemma week_start_monotone_witness :
  738887 <= 738891
  /\ get_week_start 738887 <= get_week_start 738891
  /\ (get_week_start 738887 = get_week_start 738891
      <-> 738891 < get_week_start 738887 + 7).
Proof.
  assert (H : 738887 <= 738891) by lia.
  split; [exact H | exact (week_start_monotone 738887 738891 H)].
Defined.

(** ** Weekly summarizer *)

Lemma days_in_week_perm (l l' : list date) (week : date) :
  Permutation l l' -> Permutation (days_in_week l week) (days_in_week l' week).
Proof. apply filter_perm. Qed.

Lemma get_summarize_weeks_count (l : list date) (week : date) :
  get (summarize_weeks l) week =
  if len (days_in_week l week) =? 0 then None
  else Some (len (days_in_week l week)).
Proof.
  rewrite get_summarize_weeks. destruct (days_in_week l week) as [|d r].
  - reflexivity.
  - rewrite len_cons. pose proof (len_nonneg r).
    destruct (Z.eqb_spec (1 + len r) 0); [lia | reflexivity].
Qed.

(** X4. The summary does not depend on the order in which the dates are
    iterated: two enumerations of the same set give every week the same
    count (the two dicts are equal as Python dicts). *)
Theorem summarize_weeks_order_independent (S S' : list date) :
  Permutation S S' ->
  forall week, get (summarize_weeks S) week = get (summarize_weeks S') week.
Proof.
  intros Hp week. rewrite !get_summarize_weeks_count.
  replace (len (days_in_week S' week)) with (len (days_in_week S week)).
  - reflexivity.
  - unfold len. f_equal. apply Permutation_length, days_in_week_perm, Hp.
Qed.

Lemma summarize_weeks_order_independent_witness :
  get (summarize_weeks [738796; 738802; 738795]) 738795
  = get (summarize_weeks [738795; 738796; 738802]) 738795.
Proof.
  apply (summarize_weeks_order_independent
           [738796; 738802; 738795] [738795; 738796; 738802]).
  apply Permutation_sym, Permutation_cons_append with (l := [738796; 738802]).
Defined.

Lemma days_in_week_range (l : list date) (week d : date) :
  In d (days_in_week l week) -> In d l /\ week <= d < week + 7 /\ d = week + weekday d.
Proof.
  unfold days_in_week. rewrite filter_In, Z.eqb_eq. intros [Hin <-].
  split; [exact Hin|]. pose proof (week_start_bounds d).
  unfold get_week_start in *. lia.
Qed.

Lemma NoDup_bounded_length (l : list Z) (lo n : Z) :
  0 <= n -> NoDup l -> (forall x, In x l -> lo <= x < lo + n) -> len l <= n.
Proof.
  intros Hn Hnd Hb.
  assert (Hincl : incl l (range lo (lo + n))).
  { intros x Hx. apply range_In. apply Hb, Hx. }
  apply NoDup_incl_length in Hincl; [|exact Hnd].
  unfold range in Hincl. rewrite length_map, length_seq in Hincl.
  unfold len. lia.
Qed.

Lemma days_in_week_at_most (l : list date) (week : date) :
  NoDup l ->
  len (days_in_week l week) <= 7
  /\ (business_days l -> len (days_in_week l week) <= 5).
Proof.
  intros Hnd.
  assert (Hnd' : NoDup (days_in_week l week)) by (apply NoDup_filter, Hnd).
  split.
  - apply NoDup_bounded_length with (lo := week); [lia | exact Hnd'|].
    intros x Hx. apply days_in_week_range in Hx. lia.
  - intros Hb. apply NoDup_bounded_length with (lo := week); [lia | exact Hnd'|].
    intros x Hx. apply days_in_week_range in Hx. destruct Hx as (Hin & _ & Heq).
    specialize (Hb x Hin). pose proof (weekday_range x). lia.
Qed.

(** X5. For a set of dates (no date twice), every count of the summary is
    between 1 and 7, and at most 5 when every date is a Monday to Friday. *)
Theorem summarize_weeks_count_bounds (S : list date) (week : date) (n : Z) :
  NoDup S ->
  In (week, n) (items (summarize_weeks S)) ->
  1 <= n <= 7 /\ (business_days S -> n <= 5).
Proof.
  intros Hnd Hin. apply In_items_summarize_weeks in Hin. destruct Hin as [-> H1].
  destruct (days_in_week_at_most S week Hnd) as [H7 H5].
  split; [lia | exact H5].
Qed.

Lemma summarize_weeks_count_bounds_witness :
  1 <= 3 <= 7 /\ (business_days [738796; 738802; 738795; 738797] -> 3 <= 5).
Proof.
  apply (summarize_weeks_count_bounds [738796; 738802; 738795; 738797] 738795 3).
  - repeat constructor; simpl; intuition discriminate.
  - simpl; tauto.
Defined.

(** X6. Adding one date to the attendance adds 1 to the count of its week
    (creating the entry when the week had none) and leaves the count of
    every other week as it was, whatever the iteration order. *)
Theorem summarize_weeks_add_date (S S' : list date) (d week : date) :
  Permutation S' (d :: S) ->
  get (summarize_weeks S') week =
  if get_week_start d =? week
  then Some (1 + len (days_in_week S week))
  else get (summarize_weeks S) week.
Proof.
  intros Hp. rewrite !get_summarize_weeks_count.
  replace (len (days_in_week S' week)) with (len (days_in_week (d :: S) week)).
  2:{ unfold len. f_equal. symmetry. apply Permutation_length, days_in_week_perm, Hp. }
  unfold days_in_week at 1 2. cbn [filter].
  fold (days_in_week S week).
  destruct (get_week_start d =? week); [|reflexivity].
  rewrite len_cons. pose proof (len_nonneg (days_in_week S week)).
  destruct (Z.eqb_spec (1 + len (days_in_week S week)) 0); [lia | reflexivity].
Qed.

Lemma summarize_weeks_add_date_witness :
  get (summarize_weeks [738795; 738797; 738796]) 738795
  = Some (1 + len (days_in_week [738795; 738796] 738795)).
Proof.
  apply (summarize_weeks_add_date [738795; 738796] [738795; 738797; 738796]
                                  738797 738795).
  apply perm_swap.
Defined.

(** ** Best-subset selector *)

Lemma mapM_None {A B} (f : A -> option B) (l : list A) (a : A) :
  In a l -> f a = None -> mapM f l = None.
Proof.
  induction l as [|x l IH]; intros Hin Ha; [contradiction|].
  cbn [mapM]. destruct Hin as [->|Hin].
  - now rewrite Ha.
  - destruct (f x); cbn [bind]; [|reflexivity]. now rewrite IH.
Qed.

(** X7. The selector raises [OverflowError] exactly when the week of the
    reference date starts within the first 12 weeks of year 1 (so that the
    twelfth week before it is not a date); otherwise it returns. *)
Theorem best_8_raises_iff (attendance : list date) (reference_date : date) :
  valid reference_date ->
  best_8_week_attendance attendance reference_date = None
  <-> get_week_start reference_date <= 7 * 12.
Proof.
  intros Hv. split.
  - intros Hnone.
    destruct (Z_le_gt_dec (get_week_start reference_date) (7 * 12)) as [Hle|Hgt];
      [exact Hle|].
    destruct (best_8_week_attendance_returns attendance reference_date Hv)
      as [r Hr]; [lia|]. congruence.
  - intros Hle. unfold best_8_week_attendance. cbv zeta.
    rewrite mapM_None with (a := 12); [reflexivity | apply range_In; lia|].
    unfold sub_days, add_days. cbv zeta.
    replace (0 <? get_week_start reference_date + - (7 * 12)) with false;
      [reflexivity|].
    symmetry. apply Z.ltb_ge. lia.
Qed.

Lemma best_8_raises_iff_witness :
  valid 50 /\ best_8_week_attendance [] 50 = None.
Proof.
  assert (H : valid 50) by (unfold valid, MAXORDINAL; lia).
  split; [exact H|].
  apply (best_8_raises_iff [] 50 H). vm_compute. discriminate.
Defined.

(** X8. When no attendance date falls in the 12-week window (in particular
    for an empty attendance set), the selector returns total 0, an empty
    summary and an empty chosen list. *)
Theorem best_8_nothing_in_window (attendance : list date) (reference_date : date)
      (total : Z) (summary : dict Z) (best_8 : list (date * Z)) :
  best_8_week_attendance attendance reference_date = Some (total, summary, best_8) ->
  (forall d, In d attendance ->
             in_window (get_week_start reference_date) (get_week_start d) = false) ->
  total = 0 /\ summary = [] /\ best_8 = [].
Proof.
  intros H Hout. apply best_8_inv in H. destruct H as (Hs & Hb & Ht).
  assert (Hf : filter (fun d => in_window (get_week_start reference_date)
                                          (get_week_start d)) attendance = []).
  { clear - Hout. induction attendance as [|d l IH]; [reflexivity|].
    cbn [filter]. rewrite (Hout d) by now left.
    apply IH. intros x Hx; apply Hout; now right. }
  rewrite Hf in Hs. cbn in Hs. subst summary. cbn in Hb. subst best_8.
  now subst total.
Qed.

Lemma best_8_nothing_in_window_witness :
  best_8_week_attendance [738795; 738886] 738886 = Some (0, [], [])
  /\ (0 = 0 /\ @nil (date * Z) = [] /\ @nil (date * Z) = []).
Proof.
  split; [reflexivity|].
  apply (best_8_nothing_in_window [738795; 738886] 738886 0 [] [] eq_refl).
  intros d [<-|[<-|[]]]; reflexivity.
Defined.

Lemma StronglySorted_map_inv {A B} (f : A -> B) (R : B -> B -> Prop) (l : list A) :
  StronglySorted R (map f l) -> StronglySorted (fun x y => R (f x) (f y)) l.
Proof.
  induction l as [|x l IH]; cbn [map]; intros H; [constructor|].
  inversion H as [|? ? Hs Hall]; subst. constructor; [now apply IH|].
  rewrite Forall_forall in *. intros y Hy. apply Hall. now apply in_map.
Qed.

Lemma StronglySorted_app_inv {A} (R : A -> A -> Prop) (l1 l2 : list A) :
  StronglySorted R (l1 ++ l2) ->
  StronglySorted R l1 /\ forall x y, In x l1 -> In y l2 -> R x y.
Proof.
  induction l1 as [|a l1 IH]; cbn [app]; intros H.
  - split; [constructor | intros x y []].
  - inversion H as [|? ? Hs Hall]; subst. destruct (IH Hs) as [IH1 IH2].
    rewrite Forall_forall in Hall. split.
    + constructor; [exact IH1|]. apply Forall_forall.
      intros y Hy. apply Hall, in_or_app; now left.
    + intros x y [<-|Hx] Hy; [apply Hall, in_or_app; now right | now apply IH2].
Qed.

Lemma sorted_by_days_desc_sorted (l : list (date * Z)) :
  StronglySorted (fun x y => snd x >= snd y) (sorted by_days_desc l).
Proof.
  apply (StronglySorted_map_inv snd Z.ge).
  rewrite (map_sorted snd by_days_desc desc) by reflexivity.
  apply sorted_desc_sorted.
Qed.

(** X9. The chosen weeks are the best ones: the chosen list is in
    descending order of count, and no week of the summary that was left out
    has a larger count than a chosen week. *)
Theorem best_8_chosen_are_top (attendance : list date) (reference_date : date)
      (total : Z) (summary : dict Z) (best_8 : list (date * Z)) :
  best_8_week_attendance attendance reference_date = Some (total, summary, best_8) ->
  StronglySorted (fun x y => snd x >= snd y) best_8
  /\ forall x y, In x best_8 -> In y (items summary) -> ~ In y best_8 ->
                 snd y <= snd x.
Proof.
  intros H. apply best_8_inv in H. destruct H as (_ & Hb & _).
  pose proof (sorted_by_days_desc_sorted (items summary)) as Hs.
  rewrite <- (firstn_skipn 8 (sorted by_days_desc (items summary))) in Hs.
  rewrite <- Hb in Hs. apply StronglySorted_app_inv in Hs. destruct Hs as [Hs1 Hs2].
  split; [exact Hs1|].
  intros x y Hx Hy Hny.
  assert (Hy' : In y (sorted by_days_desc (items summary))).
  { apply Permutation_in with (l := items summary);
      [symmetry; apply sorted_perm | exact Hy]. }
  rewrite <- (firstn_skipn 8 (sorted by_days_desc (items summary))), <- Hb in Hy'.
  apply in_app_or in Hy'. destruct Hy' as [Hy'|Hy']; [contradiction|].
  specialize (Hs2 x y Hx Hy'). lia.
Qed.

Lemma best_8_chosen_are_top_witness :
  best_8_week_attendance [738796; 738802; 738795; 738797; 738886] 738886
  = Some (1, [(738802, 1)], [(738802, 1)])
  /\ StronglySorted (fun x y : date * Z => snd x >= snd y) [(738802, 1)].
Proof.
  split; [reflexivity|].
  apply (best_8_chosen_are_top [738796; 738802; 738795; 738797; 738886] 738886
           1 [(738802, 1)] [(738802, 1)] eq_refl).
Defined.

Lemma incl_NoDup_perm {A} (c l : list A) :
  NoDup c -> incl c l -> exists r, Permutation l (c ++ r).
Proof.
  revert l. induction c as [|x c IH]; intros l Hnd Hincl.
  - exists l. reflexivity.
  - inversion Hnd as [|? ? Hx Hc]; subst.
    destruct (in_split x l (Hincl x (or_introl eq_refl))) as (l1 & l2 & ->).
    destruct (IH (l1 ++ l2) Hc) as [r Hr].
    + intros y Hy. specialize (Hincl y (or_intror Hy)).
      apply in_app_or in Hincl. apply in_or_app.
      destruct Hincl as [H1|[->|H2]]; [now left | contradiction | now right].
    + exists r. cbn [app]. rewrite <- Hr. symmetry. apply Permutation_middle.
Qed.

Lemma best_app_ge (k : nat) (c r : list Z) :
  (length c <= k)%nat -> sum c <= best k (c ++ r).
Proof.
  revert k. induction c as [|x c IH]; intros k Hk; cbn [app].
  - rewrite sum_nil. apply best_nonneg.
  - destruct k as [|k]; [cbn in Hk; lia|].
    cbn [best]. rewrite sum_cons.
    assert (Hc : (length c <= k)%nat) by (cbn in Hk; lia).
    specialize (IH k Hc). lia.
Qed.

Lemma best_le_sum (k : nat) (l : list Z) :
  Forall (fun v => 0 <= v) l -> best k l <= sum l.
Proof.
  intros H; revert k. induction H as [|v l Hv Hl IH]; intros k.
  - destruct k; cbn; rewrite ?sum_nil; lia.
  - rewrite sum_cons. destruct k as [|k]; [rewrite best_0; pose proof (IH 0%nat);
      rewrite best_0 in *; lia|].
    cbn [best]. pose proof (IH k). pose proof (IH (S k)). lia.
Qed.

(** X10. The total is optimal: no choice of at most 8 distinct entries of
    the summary has a larger sum of counts than the total returned. *)
Theorem best_8_total_optimal (attendance : list date) (reference_date : date)
      (total : Z) (summary : dict Z) (best_8 choice : list (date * Z)) :
  best_8_week_attendance attendance reference_date = Some (total, summary, best_8) ->
  NoDup choice -> incl choice (items summary) -> (length choice <= 8)%nat ->
  sum (map snd choice) <= total.
Proof.
  intros H Hnd Hincl Hlen.
  pose proof (best_8_total_is_best _ _ _ _ _ H) as Ht.
  apply best_8_inv in H. destruct H as (Hs & _ & _).
  rewrite <- Hs in Ht. subst total.
  destruct (incl_NoDup_perm choice (items summary) Hnd Hincl) as [r Hr].
  unfold values. rewrite (best_perm 8 (map snd summary) (map snd (choice ++ r))).
  - rewrite map_app. apply best_app_ge. now rewrite length_map.
  - apply Permutation_map, Hr.
Qed.

Lemma best_8_total_optimal_witness :
  best_8_week_attendance [738802; 738810; 738809] 738886
  = Some (3, [(738802, 1); (738809, 2)], [(738809, 2); (738802, 1)])
  /\ sum (map snd [(738802, 1)]) <= 3.
Proof.
  split; [reflexivity|].
  apply (best_8_total_optimal [738802; 738810; 738809] 738886
           3 [(738802, 1); (738809, 2)] [(738809, 2); (738802, 1)] [(738802, 1)]).
  - reflexivity.
  - repeat constructor; simpl; tauto.
  - intros x [<-|[]]; simpl; tauto.
  - simpl; lia.
Defined.

Lemma len_filter_le {A} (f : A -> bool) (l : list A) : len (filter f l) <= len l.
Proof. unfold len. pose proof (filter_length_le f l). lia. Qed.

(** X11. The total never counts more than the attendance holds: it is
    between 0 and the number of attendance dates of the 12-week window,
    hence at most the size of the attendance; and when at most 8 weeks of
    the window have attendance it is exactly the number of dates of the
    window. *)
Theorem best_8_total_bounds (attendance : list date) (reference_date : date)
      (total : Z) (summary : dict Z) (best_8 : list (date * Z)) :
  best_8_week_attendance attendance reference_date = Some (total, summary, best_8) ->
  let in_win := fun d => in_window (get_week_start reference_date) (get_week_start d) in
  0 <= total <= len (filter in_win attendance)
  /\ len (filter in_win attendance) <= len attendance
  /\ ((length (weeks_with_attendance (get_week_start reference_date) attendance) <= 8)%nat ->
      total = len (filter in_win attendance)).
Proof.
  intros H in_win.
  pose proof (best_8_total_is_best _ _ _ _ _ H) as Ht. fold in_win in Ht.
  apply best_8_inv in H. destruct H as (Hs & Hb & Ht'). fold in_win in Hs.
  split; [|split].
  - rewrite Ht. split; [apply best_nonneg|].
    rewrite <- (sum_values_summarize_weeks (filter in_win attendance)).
    apply best_le_sum, values_summarize_weeks_pos.
  - apply len_filter_le.
  - intros Hlen. rewrite Ht', Hb, firstn_all2.
    + rewrite <- (sum_values_summarize_weeks (filter in_win attendance)), <- Hs.
      apply sum_perm, Permutation_map, sorted_perm.
    + rewrite sorted_length. unfold items. rewrite Hs.
      unfold in_win. rewrite length_keys_summary. exact Hlen.
Qed.

Lemma best_8_total_bounds_witness :
  best_8_week_attendance [738802; 738810; 738809; 738886] 738886
  = Some (3, [(738802, 1); (738809, 2)], [(738809, 2); (738802, 1)])
  /\ 0 <= 3 <= len (filter (fun d => in_window (get_week_start 738886)
                                               (get_week_start d))
                           [738802; 738810; 738809; 738886]).
Proof.
  split; [reflexivity|].
  pose proof (best_8_total_bounds [738802; 738810; 738809; 738886] 738886
                3 [(738802, 1); (738809, 2)] [(738809, 2); (738802, 1)] eq_refl) as H.
  cbv zeta in H. destruct H as (H & _). exact H.
Defined.

Lemma sum_le_length (l : list Z) (b : Z) :
  Forall (fun v => v <= b) l -> sum l <= b * len l.
Proof.
  induction 1 as [|v l Hv Hl IH].
  - unfold len. cbn. lia.
  - rewrite sum_cons, len_cons. lia.
Qed.

(** For a set of attendance dates the best-8 total is at most 56 (8
    weeks of 7 days), and at most 40 when every date is a Monday to
    Friday. *)
Theorem best_8_total_at_most (attendance : list date) (reference_date : date)
      (total : Z) (summary : dict Z) (best_8 : list (date * Z)) :
  best_8_week_attendance attendance reference_date = Some (total, summary, best_8) ->
  NoDup attendance ->
  total <= 56 /\ (business_days attendance -> total <= 40).
Proof.
  intros H Hnd. apply best_8_inv in H. destruct H as (Hs & Hb & Ht).
  set (rel := filter (fun d => in_window (get_week_start reference_date)
                                         (get_week_start d)) attendance) in *.
  assert (Hnd' : NoDup rel) by (apply NoDup_filter, Hnd).
  assert (Hlen : len best_8 <= 8).
  { unfold len. rewrite Hb. pose proof (firstn_le_length 8 (sorted by_days_desc (items summary))).
    lia. }
  assert (Hin : forall kv, In kv best_8 -> In kv (items (summarize_weeks rel))).
  { intros kv Hkv. rewrite <- Hs. rewrite Hb in Hkv. now apply best_8_incl in Hkv. }
  assert (Hsum : forall b, (forall kv, In kv best_8 -> snd kv <= b) -> 0 <= b ->
                           total <= b * 8).
  { intros b Hbd Hb0. rewrite Ht.
    transitivity (b * len (map snd best_8)).
    - apply sum_le_length, Forall_forall. intros v Hv.
      apply in_map_iff in Hv. destruct Hv as (kv & <- & Hkv). now apply Hbd.
    - unfold len in *. rewrite length_map. nia. }
  split.
  - apply (Hsum 7); [|lia]. intros [k n] Hkv. apply Hin in Hkv.
    apply In_items_summarize_weeks in Hkv. destruct Hkv as [-> _]. cbn [snd].
    apply (days_in_week_at_most rel k Hnd').
  - intros Hbus. apply (Hsum 5); [|lia]. intros [k n] Hkv. apply Hin in Hkv.
    apply In_items_summarize_weeks in Hkv. destruct Hkv as [-> _]. cbn [snd].
    apply (days_in_week_at_most rel k Hnd').
    intros d Hd. apply Hbus. unfold rel in Hd. now apply filter_In in Hd.
Qed.

Lemma best_8_total_at_most_witness :
  best_8_week_attendance [738802; 738810; 738809; 738886] 738886
  = Some (3, [(738802, 1); (738809, 2)], [(738809, 2); (738802, 1)])
  /\ 3 <= 56.
Proof.
  split; [reflexivity|].
  assert (Hnd : NoDup [738802; 738810; 738809; 738886])
    by (repeat constructor; simpl; intuition discriminate).
  exact (proj1 (best_8_total_at_most [738802; 738810; 738809; 738886] 738886
           3 [(738802, 1); (738809, 2)] [(738809, 2); (738802, 1)] eq_refl Hnd)).
Defined.

(** X12. Ties keep the order of the summary: when the counts of the summary
    do not increase along its entries (for instance when all weeks have the
    same count), the chosen list is the first 8 entries of the summary. *)
Theorem best_8_ties_keep_order (attendance : list date) (reference_date : date)
      (total : Z) (summary : dict Z) (best_8 : list (date * Z)) :
  best_8_week_attendance attendance reference_date = Some (total, summary, best_8) ->
  Sorted (fun x y => snd y <= snd x) (items summary) ->
  best_8 = firstn 8 (items summary).
Proof.
  intros H Hsorted. apply best_8_inv in H. destruct H as (_ & Hb & _).
  rewrite Hb. f_equal. apply sorted_already.
  clear - Hsorted. induction Hsorted as [|x l Hs IH Hhd]; constructor; [exact IH|].
  destruct Hhd as [|y l Hxy]; constructor.
  unfold by_days_desc. now apply Z.leb_le.
Qed.

Lemma best_8_ties_keep_order_witness :
  best_8_week_attendance [738809; 738802; 738816] 738886
  = Some (3, [(738809, 1); (738802, 1); (738816, 1)],
          [(738809, 1); (738802, 1); (738816, 1)])
  /\ [(738809, 1); (738802, 1); (738816, 1)]
     = firstn 8 (items [(738809, 1); (738802, 1); (738816, 1)]).
Proof.
  split; [reflexivity|].
  apply (best_8_ties_keep_order [738809; 738802; 738816] 738886
           3 [(738809, 1); (738802, 1); (738816, 1)]
           [(738809, 1); (738802, 1); (738816, 1)] eq_refl).
  repeat constructor; simpl; lia.
Defined.

(** ** Future allocation planner *)

(** X13. On dates Python can represent, the planner raises
    [OverflowError] exactly when the date five weeks after the reference
    date is past 9999-12-31; otherwise it returns a plan. *)
Theorem plan_raises_iff (today : date) (summary : dict Z)
      (ooo_days : list date) (reference_date : date) :
  valid today -> valid reference_date ->
  calculate_future_needs today summary ooo_days reference_date = None
  <-> MAXORDINAL < reference_date + 7 * 5.
Proof.
  intros Ht Hr. split.
  - intros Hnone.
    destruct (Z_lt_ge_dec MAXORDINAL (reference_date + 7 * 5)) as [Hlt|Hge];
      [exact Hlt|].
    destruct (calculate_future_needs_returns today summary ooo_days reference_date Ht)
      as [plan Hplan]; [unfold valid in *; lia | congruence].
  - intros Hlt. unfold calculate_future_needs, add_days. cbv zeta.
    replace (reference_date + 7 * 5 <=? MAXORDINAL) with false;
      [now rewrite andb_false_r|].
    symmetry. apply Z.leb_gt. exact Hlt.
Qed.

Lemma plan_raises_iff_witness :
  valid 738886 /\ valid 3652030
  /\ calculate_future_needs 738886 [] [] 3652030 = None.
Proof.
  assert (H1 : valid 738886) by (unfold valid, MAXORDINAL; lia).
  assert (H2 : valid 3652030) by (unfold valid, MAXORDINAL; lia).
  split; [exact H1|]. split; [exact H2|].
  apply (plan_raises_iff 738886 [] [] 3652030 H1 H2). vm_compute. reflexivity.
Defined.

Lemma allocated_items_le_capacity (ooo_days weeks : list date) (shortfall : Z) :
  Forall (fun kv => snd kv <= capacity ooo_days (fst kv))
         (allocated_items ooo_days weeks shortfall).
Proof.
  revert shortfall. induction weeks as [|week rest IH]; intros s.
  - constructor.
  - cbn [allocated_items]. cbv zeta. constructor.
    + cbn [fst snd]. unfold capacity. lia.
    + destruct (_ <=? 0); [constructor | apply IH].
Qed.

Lemma allocated_items_keys_incl (ooo_days weeks : list date) (shortfall : Z) kv :
  In kv (allocated_items ooo_days weeks shortfall) -> In (fst kv) weeks.
Proof.
  intros Hin. apply (in_map fst) in Hin. fold (keys (allocated_items ooo_days weeks shortfall)) in Hin.
  rewrite keys_allocated_items in Hin. now apply In_firstn in Hin.
Qed.

Lemma In_skipn {A} (n : nat) (l : list A) (x : A) : In x (skipn n l) -> In x l.
Proof.
  intros H. rewrite <- (firstn_skipn n l). apply in_or_app; now right.
Qed.

(** X14. Allocation never exceeds capacity: when every candidate week has
    at most 5 out-of-office dates, the value of every week of the plan is
    between 0 and that week's capacity min(3, 5 - oooCount(week)). *)
Theorem plan_within_capacity (today : date) (summary : dict Z)
      (ooo_days : list date) (reference_date : date) (plan : dict Z) :
  calculate_future_needs today summary ooo_days reference_date = Some plan ->
  (forall week, In week (candidate_weeks today reference_date) ->
                ooo_count ooo_days week <= 5) ->
  forall week n, In (week, n) (items plan) ->
                 0 <= n <= Z.min 3 (5 - ooo_count ooo_days week).
Proof.
  intros H Hooo week n Hin.
  pose proof (plan_values_in_range _ _ _ _ _ H) as [_ Hrange].
  specialize (Hrange Hooo week n Hin). split; [lia|].
  apply calculate_future_needs_inv in H. cbv zeta in H. destruct H as [Hplan _].
  unfold items in Hin. rewrite Hplan in Hin. apply in_app_or in Hin.
  destruct Hin as [Hin|Hin].
  - pose proof (allocated_items_le_capacity ooo_days
                  (candidate_weeks today reference_date)
                  (initial_shortfall summary)) as Hf.
    rewrite Forall_forall in Hf. apply (Hf _ Hin).
  - apply in_map_iff in Hin. destruct Hin as (w & [= -> <-] & Hw).
    apply In_skipn in Hw. specialize (Hooo _ Hw). lia.
Qed.

Lemma plan_within_capacity_witness :
  calculate_future_needs 738886 [(738795, 3); (738802, 1)]
    [738886; 738887; 738888] 738893
  = Some [(738886, 2); (738893, 3); (738900, 3); (738907, 3); (738914, 3);
          (738921, 3); (738928, 3)]
  /\ 0 <= 2 <= Z.min 3 (5 - ooo_count [738886; 738887; 738888] 738886).
Proof.
  split; [reflexivity|].
  apply (plan_within_capacity 738886 [(738795, 3); (738802, 1)]
           [738886; 738887; 738888] 738893
           [(738886, 2); (738893, 3); (738900, 3); (738907, 3); (738914, 3);
            (738921, 3); (738928, 3)] eq_refl).
  - intros week Hw. vm_compute in Hw.
    repeat (destruct Hw as [<-|Hw]; [vm_compute; discriminate|]). contradiction.
  - left; reflexivity.
Defined.

(** X15. With the out-of-office dates the page can record (a set of Monday
    to Friday dates), every value of the plan is between 0 and 3. *)
Theorem plan_business_days (today : date) (summary : dict Z)
      (ooo_days : list date) (reference_date : date) (plan : dict Z) :
  calculate_future_needs today summary ooo_days reference_date = Some plan ->
  NoDup ooo_days -> business_days ooo_days ->
  forall week n, In (week, n) (items plan) -> 0 <= n <= 3.
Proof.
  intros H Hnd Hbus.
  pose proof (plan_values_in_range _ _ _ _ _ H) as [_ Hrange].
  apply Hrange. intros week _.
  apply (days_in_week_at_most ooo_days week Hnd), Hbus.
Qed.

Lemma plan_business_days_witness :
  calculate_future_needs 738886 [(738795, 3); (738802, 1)]
    [738886; 738887; 738888] 738893
  = Some [(738886, 2); (738893, 3); (738900, 3); (738907, 3); (738914, 3);
          (738921, 3); (738928, 3)]
  /\ 0 <= 2 <= 3.
Proof.
  split; [reflexivity|].
  apply (plan_business_days 738886 [(738795, 3); (738802, 1)]
           [738886; 738887; 738888] 738893
           [(738886, 2); (738893, 3); (738900, 3); (738907, 3); (738914, 3);
            (738921, 3); (738928, 3)] eq_refl) with (week := 738886).
  - repeat constructor; simpl; intuition discriminate.
  - intros d [<-|[<-|[<-|[]]]]; vm_compute; reflexivity.
  - left; reflexivity.
Defined.

Lemma sum_allocated_items_le (ooo_days weeks : list date) (shortfall : Z) :
  0 <= shortfall ->
  sum (values (allocated_items ooo_days weeks shortfall)) <= shortfall.
Proof.
  unfold values. revert shortfall.
  induction weeks as [|week rest IH]; intros s Hs; cbn [allocated_items map].
  - rewrite sum_nil. lia.
  - cbv zeta. rewrite sum_cons. cbn [snd].
    set (a := Z.min (Z.min 3 (5 - ooo_count ooo_days week)) s).
    destruct (Z.leb_spec (s - a) 0).
    + cbn [map]. rewrite sum_nil. lia.
    + specialize (IH (s - a)). lia.
Qed.

Lemma plan_sum_values (today : date) (summary : dict Z)
      (ooo_days : list date) (reference_date : date) (plan : dict Z) :
  calculate_future_needs today summary ooo_days reference_date = Some plan ->
  sum (values plan)
  = sum (values (allocated_items ooo_days (candidate_weeks today reference_date)
                                 (initial_shortfall summary))).
Proof.
  intros H. apply calculate_future_needs_inv in H. cbv zeta in H.
  destruct H as [Hplan _]. rewrite Hplan at 1.
  unfold values at 1. rewrite map_app, sum_app.
  fold (values (allocated_items ooo_days (candidate_weeks today reference_date)
                                (initial_shortfall summary))).
  match goal with |- _ + sum (map snd (map _ ?l)) = _ =>
    pose proof (values_zero_items l) as Hz end.
  unfold values in Hz at 1. rewrite Hz. lia.
Qed.

(** X16. The plan never asks for more than the shortfall: for every input
    the values of the plan add up to at most
    max(24 - top-8 sum of the summary, 0). *)
Theorem plan_total_at_most_shortfall (today : date) (summary : dict Z)
      (ooo_days : list date) (reference_date : date) (plan : dict Z) :
  calculate_future_needs today summary ooo_days reference_date = Some plan ->
  sum (values plan)
  <= Z.max (POLICY_DAYS_REQUIRED - sum (firstn 8 (sorted desc (values summary)))) 0.
Proof.
  intros H. rewrite (plan_sum_values _ _ _ _ _ H).
  fold (initial_shortfall summary).
  apply sum_allocated_items_le, initial_shortfall_nonneg.
Qed.

Lemma plan_total_at_most_shortfall_witness :
  calculate_future_needs 738886 [] [738886; 738887; 738888; 738889; 738890; 738891]
                         738893
  = Some [(738886, -1); (738893, 3); (738900, 3); (738907, 3); (738914, 3);
          (738921, 3); (738928, 3)]
  /\ sum (values [(738886, -1); (738893, 3); (738900, 3); (738907, 3);
                  (738914, 3); (738921, 3); (738928, 3)]) <= 24.
Proof.
  split; [reflexivity|].
  apply (plan_total_at_most_shortfall 738886 []
           [738886; 738887; 738888; 738889; 738890; 738891] 738893).
  reflexivity.
Defined.

Lemma zeros_front_loaded (ooo_days : list date) (l : list (date * Z)) :
  Forall (fun kv => snd kv = 0) l -> front_loaded ooo_days l.
Proof.
  induction 1 as [|[w n] l Hn Hl IH]; cbn [front_loaded]; [exact I|].
  split; [intros _; exact Hl | exact IH].
Qed.

Lemma front_loaded_allocated (ooo_days weeks : list date) (shortfall : Z)
      (zeros : list (date * Z)) :
  Forall (fun kv => snd kv = 0) zeros ->
  front_loaded ooo_days (allocated_items ooo_days weeks shortfall ++ zeros).
Proof.
  intros Hz. revert shortfall. induction weeks as [|week rest IH]; intros s.
  - cbn. now apply zeros_front_loaded.
  - cbn [allocated_items]. cbv zeta.
    set (a := Z.min (Z.min 3 (5 - ooo_count ooo_days week)) s).
    cbn [app front_loaded]. destruct (Z.leb_spec (s - a) 0) as [Hle|Hgt].
    + cbn [app]. split; [intros _; exact Hz | now apply zeros_front_loaded].
    + split; [|apply IH]. unfold capacity. intros Hlt. lia.
Qed.

Lemma front_loaded_split (ooo_days : list date) (l1 l2 : list (date * Z))
      (week : date) (n : Z) :
  front_loaded ooo_days (l1 ++ (week, n) :: l2) ->
  n < capacity ooo_days week -> Forall (fun kv => snd kv = 0) l2.
Proof.
  induction l1 as [|[w m] l1 IH]; cbn [app front_loaded].
  - intros [H _] Hn. now apply H.
  - intros [_ H] Hn. now apply IH.
Qed.

(** X17. Allocation is front-loaded: a week of the plan that holds less
    than its capacity min(3, 5 - oooCount(week)) is followed only by weeks
    that hold 0.  So the plan gives the earliest weeks their whole capacity,
    then at most one partial week, then zeros. *)
Theorem plan_front_loaded (today : date) (summary : dict Z)
      (ooo_days : list date) (reference_date : date) (plan : dict Z)
      (before after : list (date * Z)) (week : date) (n : Z) :
  calculate_future_needs today summary ooo_days reference_date = Some plan ->
  items plan = before ++ (week, n) :: after ->
  n < Z.min 3 (5 - ooo_count ooo_days week) ->
  Forall (fun kv => snd kv = 0) after.
Proof.
  intros H Hsplit Hn. apply calculate_future_needs_inv in H. cbv zeta in H.
  destruct H as [Hplan _]. unfold items in Hsplit.
  apply (front_loaded_split ooo_days before after week n); [|exact Hn].
  rewrite <- Hsplit, Hplan. apply front_loaded_allocated.
  apply Forall_forall. intros kv Hkv. apply in_map_iff in Hkv.
  now destruct Hkv as (w & <- & _).
Qed.

Lemma plan_front_loaded_witness :
  calculate_future_needs 738886 [(738795, 20)] [] 738893
  = Some [(738886, 3); (738893, 1); (738900, 0); (738907, 0); (738914, 0);
          (738921, 0); (738928, 0)]
  /\ Forall (fun kv : date * Z => snd kv = 0)
            [(738900, 0); (738907, 0); (738914, 0); (738921, 0); (738928, 0)].
Proof.
  split; [reflexivity|].
  apply (plan_front_loaded 738886 [(738795, 20)] [] 738893
           [(738886, 3); (738893, 1); (738900, 0); (738907, 0); (738914, 0);
            (738921, 0); (738928, 0)]
           [(738886, 3)]
           [(738900, 0); (738907, 0); (738914, 0); (738921, 0); (738928, 0)]
           738893 1).
  - reflexivity.
  - reflexivity.
  - vm_compute. reflexivity.
Defined.

(** X18. Nothing is asked of someone who already complies: when the 8
    largest counts of the summary add up to 24 or more and no candidate week
    has more than 5 out-of-office dates, every week of the plan holds 0. *)
Theorem plan_nothing_needed (today : date) (summary : dict Z)
      (ooo_days : list date) (reference_date : date) (plan : dict Z) :
  calculate_future_needs today summary ooo_days reference_date = Some plan ->
  POLICY_DAYS_REQUIRED <= sum (firstn 8 (sorted desc (values summary))) ->
  (forall week, In week (candidate_weeks today reference_date) ->
                ooo_count ooo_days week <= 5) ->
  forall week n, In (week, n) (items plan) -> n = 0.
Proof.
  intros H Htop Hooo week n Hin.
  apply calculate_future_needs_inv in H. cbv zeta in H. destruct H as [Hplan _].
  assert (Hs : initial_shortfall summary = 0) by (unfold initial_shortfall; lia).
  rewrite Hs in Hplan. unfold items in Hin. rewrite Hplan in Hin.
  apply in_app_or in Hin. destruct Hin as [Hin|Hin].
  - destruct (candidate_weeks today reference_date) as [|w0 rest]; [contradiction|].
    specialize (Hooo w0 (or_introl eq_refl)).
    cbn [allocated_items] in Hin. cbv zeta in Hin.
    replace (Z.min (Z.min 3 (5 - ooo_count ooo_days w0)) 0) with 0 in Hin by lia.
    cbn in Hin. destruct Hin as [[= _ <-]|[]]. reflexivity.
  - apply in_map_iff in Hin. now destruct Hin as (w & [= _ <-] & _).
Qed.

Lemma plan_nothing_needed_witness :
  calculate_future_needs 738886 [(738795, 25)] [738887] 738893
  = Some [(738886, 0); (738893, 0); (738900, 0); (738907, 0); (738914, 0);
          (738921, 0); (738928, 0)]
  /\ 0 = 0.
Proof.
  split; [reflexivity|].
  apply (plan_nothing_needed 738886 [(738795, 25)] [738887] 738893
           [(738886, 0); (738893, 0); (738900, 0); (738907, 0); (738914, 0);
            (738921, 0); (738928, 0)] eq_refl) with (week := 738886).
  - vm_compute. discriminate.
  - intros week Hw. vm_compute in Hw.
    repeat (destruct Hw as [<-|Hw]; [vm_compute; discriminate|]). contradiction.
  - left; reflexivity.
Defined.

(** X19. Selector and planner agree: fed with the summary the selector
    returned, the planner starts from the shortfall max(24 - total, 0) of the
    selector's own total; so when the capacities of the candidate weeks add
    up to at least that shortfall, the total plus all the suggested days is
    exactly max(24, total). *)
Theorem selector_planner_compose (today : date) (attendance ooo_days : list date)
      (reference_date : date) (total : Z) (summary : dict Z)
      (best_8 : list (date * Z)) (plan : dict Z) :
  best_8_week_attendance attendance reference_date = Some (total, summary, best_8) ->
  calculate_future_needs today summary ooo_days reference_date = Some plan ->
  Z.max (POLICY_DAYS_REQUIRED - total) 0
  <= sum (map (fun week => Z.min 3 (5 - ooo_count ooo_days week))
              (candidate_weeks today reference_date)) ->
  total + sum (values plan) = Z.max POLICY_DAYS_REQUIRED total.
Proof.
  intros Hsel Hplan Hcap.
  apply best_8_inv in Hsel. destruct Hsel as (_ & Hb & Ht).
  rewrite Hb, best_8_total_top in Ht.
  rewrite (plan_sum_values _ _ _ _ _ Hplan).
  assert (Hs : initial_shortfall summary = Z.max (POLICY_DAYS_REQUIRED - total) 0).
  { unfold initial_shortfall. now rewrite Ht. }
  rewrite sum_allocated_items.
  - rewrite Hs. lia.
  - apply initial_shortfall_nonneg.
  - rewrite Hs. exact Hcap.
Qed.

Lemma selector_planner_compose_witness :
  best_8_week_attendance [738816; 738810; 738809] 738893
  = Some (3, [(738816, 1); (738809, 2)], [(738809, 2); (738816, 1)])
  /\ calculate_future_needs 738886 [(738816, 1); (738809, 2)] [] 738893
     = Some [(738886, 3); (738893, 3); (738900, 3); (738907, 3); (738914, 3);
             (738921, 3); (738928, 3)]
  /\ 3 + sum (values [(738886, 3); (738893, 3); (738900, 3); (738907, 3);
                      (738914, 3); (738921, 3); (738928, 3)])
     = Z.max POLICY_DAYS_REQUIRED 3.
Proof.
  split; [reflexivity|]. split; [reflexivity|].
  apply (selector_planner_compose 738886 [738816; 738810; 738809] [] 738893
           3 [(738816, 1); (738809, 2)] [(738809, 2); (738816, 1)]).
  - reflexivity.
  - reflexivity.
  - vm_compute. discriminate.
Defined.

(** ** The weeks shown on the page *)

Lemma sub_days_Some (d n r : Z) : sub_days d n = Some r -> r = d - n.
Proof. unfold sub_days. intros H. apply add_days_Some in H. lia. Qed.

Lemma generate_weeks_inv (start_date : date) (num_weeks : Z) (weeks : list date) :
  generate_weeks start_date num_weeks = Some weeks ->
  weeks = map (fun w => get_week_start start_date - 7 * w) (range 0 num_weeks).
Proof.
  unfold generate_weeks. apply mapM_map. intros w b _.
  destruct (sub_days start_date (7 * w)) as [d|] eqn:Hd; cbn [bind]; [|discriminate].
  apply sub_days_Some in Hd. intros [= <-]. subst d.
  replace (start_date - 7 * w) with (start_date + 7 * (- w)) by lia.
  rewrite week_start_add_weeks. lia.
Qed.

(** X20. [generate_weeks] lists week-starts going back in time from the
    week of [start_date], one per week and newest first: its [w]-th entry
    is the week-start of [start_date] minus [w] weeks; the list has
    [num_weeks] entries, and none when [num_weeks] is zero or negative. *)
Theorem generate_weeks_goes_back (start_date : date) (num_weeks : Z)
      (weeks : list date) :
  generate_weeks start_date num_weeks = Some weeks ->
  weeks = map (fun w => get_week_start start_date - 7 * w) (range 0 num_weeks)
  /\ len weeks = Z.max num_weeks 0
  /\ (forall week, In week weeks -> weekday week = 0)
  /\ StronglySorted Z.gt weeks.
Proof.
  intros H. apply generate_weeks_inv in H. subst weeks.
  split; [reflexivity|]. split; [|split].
  - unfold len, range. rewrite !length_map, length_seq. lia.
  - intros week Hin. apply in_map_iff in Hin. destruct Hin as (w & <- & _).
    replace (get_week_start start_date - 7 * w)
      with (get_week_start start_date + 7 * (- w)) by lia.
    rewrite weekday_add_weeks. apply weekday_week_start.
  - apply Sorted_StronglySorted; [intros x y z; lia|].
    generalize (range_ascending 0 num_weeks). generalize (range 0 num_weeks).
    induction 1 as [|w l Hs IH Hhd]; cbn [map]; constructor; [exact IH|].
    apply (HdRel_map (fun w => get_week_start start_date - 7 * w) Z.lt Z.gt);
      [intros; lia | exact Hhd].
Qed.

Lemma generate_weeks_goes_back_witness :
  generate_weeks 738888 3 = Some [738886; 738879; 738872]
  /\ len [738886; 738879; 738872] = Z.max 3 0.
Proof.
  split; [reflexivity|].
  apply (generate_weeks_goes_back 738888 3 [738886; 738879; 738872] eq_refl).
Defined.

(** X21. The default week of the date picker, [next_monday], is the first
    Monday that is not before today: today itself on a Monday, otherwise
    the Monday of the following week. *)
Theorem next_monday_is_first_monday (today nm : date) :
  next_monday today = Some nm ->
  weekday nm = 0
  /\ today <= nm <= today + 6
  /\ (weekday today = 0 -> nm = today)
  /\ forall m, weekday m = 0 -> today <= m -> nm <= m.
Proof.
  unfold next_monday. intros H. apply add_days_Some in H.
  pose proof (weekday_range today) as Hwd.
  assert (Htoday : today = get_week_start today + weekday today)
    by (unfold get_week_start; lia).
  assert (Hk : (7 - weekday today) mod 7
               = if weekday today =? 0 then 0 else 7 - weekday today).
  { destruct (Z.eqb_spec (weekday today) 0) as [->|Hne]; [reflexivity|].
    apply Z.mod_small. lia. }
  rewrite Hk in H. clear Hk.
  destruct (Z.eqb_spec (weekday today) 0) as [H0|Hne].
  - rewrite Z.add_0_r in H. subst nm.
    split; [exact H0|]. split; [lia|]. split; [reflexivity|]. intros; lia.
  - assert (Hnm : nm = get_week_start today + 7 * 1) by lia.
    split; [rewrite Hnm, weekday_add_weeks; apply weekday_week_start|].
    split; [lia|]. split; [intros; contradiction|].
    intros m Hm Hle.
    destruct (monday_diff m (get_week_start today) Hm (weekday_week_start today))
      as [w Hw]. lia.
Qed.

Lemma next_monday_is_first_monday_witness :
  next_monday 738888 = Some 738893
  /\ weekday 738893 = 0 /\ 738888 <= 738893 <= 738888 + 6.
Proof.
  split; [reflexivity|].
  destruct (next_monday_is_first_monday 738888 738893 eq_refl) as (H1 & H2 & _).
  split; [exact H1 | exact H2].
Defined.

Lemma past_weeks_inv (selected : date) (weeks : list date) :
  past_weeks selected = Some weeks ->
  weeks = rev (map (fun w => get_week_start selected - 7 * (1 + w)) (range 0 12)).
Proof.
  unfold past_weeks.
  destruct (sub_days selected (7 * 1)) as [start|] eqn:Hs; cbn [bind]; [|discriminate].
  apply sub_days_Some in Hs.
  destruct (generate_weeks start 12) as [l|] eqn:Hl; cbn [bind]; [|discriminate].
  apply generate_weeks_inv in Hl. intros [= <-]. subst l start. f_equal.
  apply map_ext. intros w.
  replace (selected - 7 * 1) with (selected + 7 * (- 1)) by lia.
  rewrite week_start_add_weeks. lia.
Qed.

Lemma future_weeks_inv (selected : date) (weeks : list date) :
  future_weeks selected = Some weeks ->
  weeks = map (fun w => get_week_start selected + 7 * w) (range 0 6).
Proof.
  unfold future_weeks. apply mapM_map. intros w b _.
  destruct (add_days selected (7 * w)) as [d|] eqn:Hd; cbn [bind]; [|discriminate].
  apply add_days_Some in Hd. intros [= <-]. subst d.
  apply week_start_add_weeks.
Qed.

(** X22. The 12 past weeks of the calendar are the selector's window: for
    a selected Monday they are, oldest first, the 12 Mondays from 12 weeks
    to 1 week before it, that is exactly the week-starts the selector counts
    for that reference date. *)
Theorem past_weeks_are_window (selected : date) (weeks : list date) :
  past_weeks selected = Some weeks ->
  weekday selected = 0 ->
  weeks = map (fun i => selected - 7 * 12 + 7 * i) (range 0 12)
  /\ forall week, In week weeks <->
                  weekday week = 0
                  /\ in_window (get_week_start selected) week = true.
Proof.
  intros H Hmon. apply past_weeks_inv in H.
  rewrite (week_start_monday selected Hmon) in *.
  assert (Heq : weeks = map (fun i => selected - 7 * 12 + 7 * i) (range 0 12)).
  { rewrite H. change (range 0 12) with [0; 1; 2; 3; 4; 5; 6; 7; 8; 9; 10; 11].
    cbn [map rev app]. repeat (f_equal; try lia). }
  split; [exact Heq|].
  intros week. rewrite Heq, in_map_iff. unfold in_window.
  rewrite andb_true_iff, Z.leb_le, Z.ltb_lt. split.
  - intros (i & <- & Hi). apply range_In in Hi.
    replace (selected - 7 * 12 + 7 * i) with (selected + 7 * (i - 12)) by lia.
    rewrite weekday_add_weeks. split; [exact Hmon | lia].
  - intros (Hw & Hlo & Hhi).
    destruct (monday_diff week selected Hw Hmon) as [w ->].
    exists (w + 12). split; [lia|]. apply range_In. lia.
Qed.

Lemma past_weeks_are_window_witness :
  past_weeks 738886
  = Some [738802; 738809; 738816; 738823; 738830; 738837; 738844; 738851;
          738858; 738865; 738872; 738879]
  /\ (In 738802 [738802; 738809; 738816; 738823; 738830; 738837; 738844; 738851;
                 738858; 738865; 738872; 738879]
      <-> weekday 738802 = 0 /\ in_window (get_week_start 738886) 738802 = true).
Proof.
  split; [reflexivity|].
  destruct (past_weeks_are_window 738886 _ eq_refl eq_refl) as [_ H].
  exact (H 738802).
Defined.

(** X23. For a selected Monday the calendar shows 18 consecutive weeks,
    oldest first: the Mondays from 12 weeks before the selected week to 5
    weeks after it. *)
Theorem combined_weeks_consecutive (selected : date) (weeks : list date) :
  combined_weeks selected = Some weeks ->
  weekday selected = 0 ->
  weeks = map (fun i => selected - 7 * 12 + 7 * i) (range 0 18).
Proof.
  unfold combined_weeks. intros H Hmon.
  destruct (past_weeks selected) as [past|] eqn:Hp; cbn [bind] in H; [|discriminate].
  destruct (future_weeks selected) as [future|] eqn:Hf; cbn [bind] in H; [|discriminate].
  injection H as <-.
  apply past_weeks_inv in Hp. apply future_weeks_inv in Hf.
  rewrite (week_start_monday selected Hmon) in *. subst past future.
  change (range 0 12) with [0; 1; 2; 3; 4; 5; 6; 7; 8; 9; 10; 11].
  change (range 0 6) with [0; 1; 2; 3; 4; 5].
  change (range 0 18)
    with [0; 1; 2; 3; 4; 5; 6; 7; 8; 9; 10; 11; 12; 13; 14; 15; 16; 17].
  cbn [map rev app]. repeat (f_equal; try lia).
Qed.

Lemma combined_weeks_consecutive_witness :
  combined_weeks 738886
  = Some [738802; 738809; 738816; 738823; 738830; 738837; 738844; 738851;
          738858; 738865; 738872; 738879; 738886; 738893; 738900; 738907;
          738914; 738921]
  /\ [738802; 738809; 738816; 738823; 738830; 738837; 738844; 738851;
      738858; 738865; 738872; 738879; 738886; 738893; 738900; 738907;
      738914; 738921]
     = map (fun i => 738886 - 7 * 12 + 7 * i) (range 0 18).
Proof.
  split; [reflexivity|].
  apply (combined_weeks_consecutive 738886 _ eq_refl eq_refl).
Defined.

(** X24. Every future week of the chart has an entry in the plan: when the
    week of today is not after the week of the selected date, the 6 weeks
    from the selected week on are all keys of the plan, so the chart's
    [needs.get(week, 0)] reads the plan's own value for them. *)
Theorem future_weeks_in_plan (today : date) (summary : dict Z)
      (ooo_days : list date) (selected : date) (plan : dict Z)
      (weeks : list date) :
  calculate_future_needs today summary ooo_days selected = Some plan ->
  future_weeks selected = Some weeks ->
  get_week_start today <= get_week_start selected ->
  forall week, In week weeks -> exists n, get plan week = Some n.
Proof.
  intros Hplan Hfw Hle week Hin.
  apply calculate_future_needs_inv in Hplan. cbv zeta in Hplan.
  destruct Hplan as [_ Hkeys]. apply In_keys_get. rewrite Hkeys.
  apply future_weeks_inv in Hfw. subst weeks.
  apply in_map_iff in Hin. destruct Hin as (w & <- & Hw). apply range_In in Hw.
  apply In_candidate_weeks. rewrite weekday_add_weeks, week_start_add_weeks.
  split; [apply weekday_week_start | lia].
Qed.

Lemma future_weeks_in_plan_witness :
  calculate_future_needs 738886 [] [] 738893
  = Some [(738886, 3); (738893, 3); (738900, 3); (738907, 3); (738914, 3);
          (738921, 3); (738928, 3)]
  /\ future_weeks 738893 = Some [738893; 738900; 738907; 738914; 738921; 738928]
  /\ exists n, get [(738886, 3); (738893, 3); (738900, 3); (738907, 3);
                    (738914, 3); (738921, 3); (738928, 3)] 738928 = Some n.
Proof.
  split; [reflexivity|]. split; [reflexivity|].
  apply (future_weeks_in_plan 738886 [] [] 738893
           [(738886, 3); (738893, 3); (738900, 3); (738907, 3); (738914, 3);
            (738921, 3); (738928, 3)]
           [738893; 738900; 738907; 738914; 738921; 738928] eq_refl eq_refl).
  - vm_compute. discriminate.
  - simpl; tauto.
Defined.

(** ** Marking days *)

Lemma In_add (s : list date) (d x : date) :
  In x (DateSet.add s d) <-> x = d \/ In x s.
Proof.
  unfold DateSet.add. destruct (elem d s) eqn:He.
  - apply elem_In in He. split; [now right | intros [->|H]; assumption].
  - cbn. split; intros [H|H]; auto.
Qed.

Lemma In_discard (s : list date) (d x : date) :
  In x (DateSet.discard s d) <-> In x s /\ x <> d.
Proof.
  unfold DateSet.discard. rewrite filter_In, negb_true_iff, Z.eqb_neq. tauto.
Qed.

Lemma NoDup_add (s : list date) (d : date) : NoDup s -> NoDup (DateSet.add s d).
Proof.
  unfold DateSet.add. intros H. destruct (elem d s) eqn:He; [exact H|].
  constructor; [|exact H]. rewrite <- elem_In, He. discriminate.
Qed.

Lemma NoDup_discard (s : list date) (d : date) :
  NoDup s -> NoDup (DateSet.discard s d).
Proof. apply NoDup_filter. Qed.

(** X25. After the radio of a day is handled, the day is in the attendance
    set exactly when the radio says Office and in the out-of-office set
    exactly when it says WFH (so never in both), and the membership of every
    other date is unchanged. *)
Theorem mark_sets (st : session) (day : date) (s : status) :
  (In day (attendance (mark st day s)) <-> s = StatusOffice)
  /\ (In day (ooo (mark st day s)) <-> s = StatusWFH)
  /\ forall d, d <> day ->
               (In d (attendance (mark st day s)) <-> In d (attendance st))
               /\ (In d (ooo (mark st day s)) <-> In d (ooo st)).
Proof.
  destruct s; cbn [mark attendance ooo];
    repeat rewrite In_add; repeat rewrite In_discard;
    (split; [|split]);
    try (intros d Hd; rewrite ?In_add, ?In_discard);
    intuition (try discriminate; try congruence).
Qed.

Lemma mark_invariants (st : session) (day : date) (s : status) :
  disjoint st -> NoDup (attendance st) -> NoDup (ooo st) ->
  disjoint (mark st day s)
  /\ NoDup (attendance (mark st day s)) /\ NoDup (ooo (mark st day s))
  /\ (weekday day < 5 -> business_days (attendance st) -> business_days (ooo st) ->
      business_days (attendance (mark st day s))
      /\ business_days (ooo (mark st day s))).
Proof.
  intros Hdis Ha Ho. unfold disjoint, business_days in *.
  destruct s; cbn [mark attendance ooo];
    (split; [|split; [|split]]);
    try (apply NoDup_add; assumption); try (apply NoDup_discard; assumption);
    try (intros d; rewrite ?In_add, ?In_discard; intros; intuition (subst; eauto; fail));
    try (intros Hday Hba Hbo; split; intros d; rewrite ?In_add, ?In_discard;
         intros; intuition (subst; eauto)).
Qed.

(** X26. Marking keeps the two sets apart: starting from sets that share no
    date, any sequence of radio values leaves sets that share no date and
    hold no date twice; and when only Monday-to-Friday days are marked, sets
    of Monday-to-Friday dates stay so. *)
Theorem mark_all_invariants (st : session) (choices : list (date * status)) :
  disjoint st -> NoDup (attendance st) -> NoDup (ooo st) ->
  disjoint (mark_all st choices)
  /\ NoDup (attendance (mark_all st choices))
  /\ NoDup (ooo (mark_all st choices))
  /\ ((forall c, In c choices -> weekday (fst c) < 5) ->
      business_days (attendance st) -> business_days (ooo st) ->
      business_days (attendance (mark_all st choices))
      /\ business_days (ooo (mark_all st choices))).
Proof.
  unfold mark_all. revert st.
  induction choices as [|[day s] choices IH]; intros st Hdis Ha Ho; cbn [fold_left].
  - repeat split; auto; tauto.
  - destruct (mark_invariants st day s Hdis Ha Ho) as (Hdis' & Ha' & Ho' & Hb').
    destruct (IH (mark st day s) Hdis' Ha' Ho') as (H1 & H2 & H3 & H4).
    cbn [fst snd]. repeat split; auto.
    + apply H4.
      * intros c Hc. apply H. now right.
      * apply Hb'; auto. apply (H (day, s)). now left.
      * apply Hb'; auto. apply (H (day, s)). now left.
    + apply H4.
      * intros c Hc. apply H. now right.
      * apply Hb'; auto. apply (H (day, s)). now left.
      * apply Hb'; auto. apply (H (day, s)). now left.
Qed.

Lemma mark_all_invariants_witness :
  disjoint (mark_all {| attendance := []; ooo := [] |}
                     [(738886, StatusWFH); (738887, StatusOffice);
                      (738886, StatusOffice)]).
Proof.
  apply (mark_all_invariants {| attendance := []; ooo := [] |}
           [(738886, StatusWFH); (738887, StatusOffice); (738886, StatusOffice)]).
  - intros d [].
  - constructor.
  - constructor.
Defined.

(** X27. With the days the page lets one mark, the plan is always in
    range: after any sequence of radio values on Monday-to-Friday days,
    starting from a set of Monday-to-Friday out-of-office dates, the planner
    run on the resulting out-of-office set suggests between 0 and 3 days for
    every week. *)
Theorem marked_plan_in_range (today : date) (summary : dict Z) (st : session)
      (choices : list (date * status)) (selected : date) (plan : dict Z) :
  NoDup (ooo st) -> business_days (ooo st) ->
  (forall c, In c choices -> weekday (fst c) < 5) ->
  calculate_future_needs today summary (ooo (mark_all st choices)) selected
  = Some plan ->
  forall week n, In (week, n) (items plan) -> 0 <= n <= 3.
Proof.
  intros Hnd Hbus Hch Hplan.
  assert (Hinv : NoDup (ooo (mark_all st choices))
                 /\ business_days (ooo (mark_all st choices))).
  { clear Hplan. unfold mark_all. revert st Hnd Hbus.
    induction choices as [|[day s] choices IH]; intros st Hnd Hbus; cbn [fold_left].
    - split; assumption.
    - apply IH.
      + intros c Hc. apply Hch. now right.
      + destruct s; cbn [mark ooo fst snd];
          try (apply NoDup_add; assumption); apply NoDup_discard; assumption.
      + specialize (Hch (day, s) (or_introl eq_refl)). cbn [fst] in Hch.
        unfold business_days in *.
        destruct s; cbn [mark ooo fst snd]; intros d;
          rewrite ?In_add, ?In_discard; intros; intuition (subst; eauto). }
  destruct Hinv as [Hnd' Hbus'].
  pose proof (plan_values_in_range _ _ _ _ _ Hplan) as [_ Hrange].
  apply Hrange. intros week _.
  apply (days_in_week_at_most _ week Hnd'), Hbus'.
Qed.

Lemma marked_plan_in_range_witness :
  calculate_future_needs 738886 []
    (ooo (mark_all {| attendance := []; ooo := [] |}
                   [(738886, StatusWFH); (738887, StatusWFH)])) 738893
  = Some [(738886, 3); (738893, 3); (738900, 3); (738907, 3); (738914, 3);
          (738921, 3); (738928, 3)]
  /\ 0 <= 3 <= 3.
Proof.
  split; [reflexivity|].
  apply (marked_plan_in_range 738886 [] {| attendance := []; ooo := [] |}
           [(738886, StatusWFH); (738887, StatusWFH)] 738893
           [(738886, 3); (738893, 3); (738900, 3); (738907, 3); (738914, 3);
            (738921, 3); (738928, 3)]) with (week := 738886).
  - constructor.
  - intros d [].
  - intros c [<-|[<-|[]]]; vm_compute; reflexivity.
  - reflexivity.
  - left; reflexivity.
Defined.

(** ** Projection *)

Lemma len_filter_exclusive {A} (f g : A -> bool) (l : list A) :
  (forall x, f x = true -> g x = true -> False) ->
  len (filter f l) + len (filter g l) <= len l.
Proof.
  intros Hex. induction l as [|x l IH]; [cbn; lia|].
  cbn [filter]. specialize (Hex x).
  destruct (f x), (g x); rewrite ?len_cons; try lia; exfalso; now apply Hex.
Qed.

(** X28. The projected total counts no attendance date twice: a date of the
    12-week window is before the selected date, a future date is not, so the
    projected total is between 0 and the number of attendance dates. *)
Theorem total_projected_bounds (attendance : list date) (selected : date) (t : Z) :
  total_projected attendance selected = Some t ->
  0 <= t <= len attendance.
Proof.
  unfold total_projected.
  destruct (best_8_week_attendance attendance selected) as [[[total summary] best_8]|]
    eqn:Hsel; cbn [bind fst]; [|discriminate].
  intros [= <-].
  pose proof (best_8_total_is_best _ _ _ _ _ Hsel) as Ht.
  set (in_win := fun d => in_window (get_week_start selected) (get_week_start d)) in *.
  assert (Htot : 0 <= total <= len (filter in_win attendance)).
  { rewrite Ht. split; [apply best_nonneg|].
    rewrite <- (sum_values_summarize_weeks (filter in_win attendance)).
    apply best_le_sum, values_summarize_weeks_pos. }
  pose proof (len_nonneg (filter (fun d => selected <=? d) attendance)).
  assert (Hex : len (filter in_win attendance)
                + len (filter (fun d => selected <=? d) attendance)
                <= len attendance).
  { apply len_filter_exclusive. intros d Hw Hf. unfold in_win, in_window in Hw.
    apply andb_true_iff in Hw. destruct Hw as [_ Hw].
    apply Z.ltb_lt in Hw. apply Z.leb_le in Hf.
    destruct (monday_diff (get_week_start d) (get_week_start selected)
                (weekday_week_start d) (weekday_week_start selected)) as [w Hw'].
    pose proof (week_start_bounds d). pose proof (week_start_bounds selected). lia. }
  lia.
Qed.

Lemma total_projected_bounds_witness :
  total_projected [738802; 738810; 738809; 738886; 738900] 738886 = Some 5
  /\ 0 <= 5 <= len [738802; 738810; 738809; 738886; 738900].
Proof.
  split; [reflexivity|].
  exact (total_projected_bounds [738802; 738810; 738809; 738886; 738900] 738886 5
           eq_refl).
Defined.

Lemma cumulative_totals_items (needs : dict Z) (its : list (date * Z)) (r : Z) :
  NoDup (keys needs) -> incl its (items needs) ->
  cumulative_totals needs (keys its) r = Some (running_sums r (values its)).
Proof.
  intros Hnd. revert r. induction its as [|[k n] its IH]; intros r Hincl.
  - reflexivity.
  - cbn [keys values map fst snd cumulative_totals running_sums].
    rewrite (In_get needs k n Hnd) by (apply Hincl; now left). cbn [bind].
    fold (keys its). fold (values its). rewrite IH.
    + reflexivity.
    + intros x Hx. apply Hincl. now right.
Qed.

Lemma aligned_running_Some (l : list Z) (idx r i : Z) :
  aligned_week_index_from idx (running_sums r l) = Some i ->
  exists k : nat,
    i = idx + Z.of_nat k /\ (k < length l)%nat
    /\ POLICY_DAYS_REQUIRED <= r + sum (firstn (S k) l)
    /\ forall j, (j < k)%nat -> r + sum (firstn (S j) l) < POLICY_DAYS_REQUIRED.
Proof.
  revert idx r. induction l as [|n l IH]; intros idx r; cbn [running_sums aligned_week_index_from].
  - discriminate.
  - destruct (Z.leb_spec POLICY_DAYS_REQUIRED (r + n)) as [Hge|Hlt].
    + intros [= <-]. exists 0%nat. repeat split.
      * lia.
      * cbn; lia.
      * cbn [firstn]. rewrite sum_cons, sum_nil. lia.
      * intros j Hj; lia.
    + intros H. destruct (IH _ _ H) as (k & Hi & Hk & Hreach & Hbefore).
      exists (S k). repeat split.
      * lia.
      * cbn; lia.
      * change (firstn (S (S k)) (n :: l)) with (n :: firstn (S k) l).
        rewrite sum_cons. lia.
      * intros [|j] Hj.
        -- cbn [firstn]. rewrite sum_cons, sum_nil. lia.
        -- change (firstn (S (S j)) (n :: l)) with (n :: firstn (S j) l).
           rewrite sum_cons. specialize (Hbefore j ltac:(lia)). lia.
Qed.

Lemma aligned_running_None (l : list Z) (idx r : Z) :
  aligned_week_index_from idx (running_sums r l) = None ->
  forall j, (j < length l)%nat -> r + sum (firstn (S j) l) < POLICY_DAYS_REQUIRED.
Proof.
  revert idx r. induction l as [|n l IH]; intros idx r; cbn [running_sums aligned_week_index_from].
  - intros _ j Hj. cbn in Hj. lia.
  - destruct (Z.leb_spec POLICY_DAYS_REQUIRED (r + n)) as [Hge|Hlt]; [discriminate|].
    intros H [|j] Hj.
    + cbn [firstn]. rewrite sum_cons, sum_nil. lia.
    + change (firstn (S (S j)) (n :: l)) with (n :: firstn (S j) l).
      rewrite sum_cons. cbn in Hj. specialize (IH _ _ H j ltac:(lia)). lia.
Qed.

Lemma calculate_future_needs_NoDup (today : date) (summary : dict Z)
      (ooo_days : list date) (reference_date : date) (plan : dict Z) :
  calculate_future_needs today summary ooo_days reference_date = Some plan ->
  NoDup (keys plan).
Proof.
  intros H. apply calculate_future_needs_inv in H. cbv zeta in H.
  destruct H as [_ Hk]. rewrite Hk.
  apply ascending_NoDup, candidate_weeks_ascending.
Qed.

Lemma projection_inv (today : date) (attendance ooo_days : list date)
      (selected : date) (needs : dict Z) (idx : option Z) :
  projection today attendance ooo_days selected = Some (needs, idx) ->
  exists total summary best_8,
    best_8_week_attendance attendance selected = Some (total, summary, best_8)
    /\ calculate_future_needs today summary ooo_days selected = Some needs
    /\ idx = aligned_week_index (running_sums total (values needs)).
Proof.
  unfold projection.
  destruct (best_8_week_attendance attendance selected) as [[[total summary] best_8]|]
    eqn:Hsel; cbn [bind fst snd]; [|discriminate].
  destruct (calculate_future_needs today summary ooo_days selected) as [plan|]
    eqn:Hplan; cbn [bind]; [|discriminate].
  rewrite (cumulative_totals_items plan plan total)
    by (try (eapply calculate_future_needs_NoDup; eassumption); apply incl_refl).
  cbn [bind]. intros [= <- <-].
  exists total, summary, best_8. auto.
Qed.

(** X29. The aligned week is the first week at which the best-8 total plus
    the days suggested so far reaches 24: when an index is found, the
    cumulative total through that week is at least 24 and the cumulative
    total through every earlier week is below 24; when none is found
    ([None]), the cumulative total through every week of the plan is below
    24. *)
Theorem aligned_week_is_first (today : date) (attendance ooo_days : list date)
      (selected : date) (needs : dict Z) (idx : option Z) :
  projection today attendance ooo_days selected = Some (needs, idx) ->
  exists total summary best_8,
    best_8_week_attendance attendance selected = Some (total, summary, best_8)
    /\ match idx with
       | Some i =>
           0 <= i < len needs
           /\ POLICY_DAYS_REQUIRED
              <= total + sum (firstn (S (Z.to_nat i)) (values needs))
           /\ forall j, (j < Z.to_nat i)%nat ->
                        total + sum (firstn (S j) (values needs))
                        < POLICY_DAYS_REQUIRED
       | None =>
           forall j, (j < length needs)%nat ->
                     total + sum (firstn (S j) (values needs))
                     < POLICY_DAYS_REQUIRED
       end.
Proof.
  intros H. apply projection_inv in H.
  destruct H as (total & summary & best_8 & Hsel & Hplan & Hidx).
  exists total, summary, best_8. split; [exact Hsel|].
  unfold aligned_week_index in Hidx. symmetry in Hidx.
  destruct idx as [i|].
  - apply aligned_running_Some in Hidx.
    destruct Hidx as (k & Hi & Hk & Hreach & Hbefore).
    unfold values in Hk. rewrite length_map in Hk.
    replace (Z.to_nat i) with k by lia.
    split; [unfold len; lia|]. split; [exact Hreach | exact Hbefore].
  - intros j Hj. apply (aligned_running_None _ _ _ Hidx).
    unfold values. now rewrite length_map.
Qed.

Lemma aligned_week_is_first_witness :
  projection 738886 [738816; 738810; 738809] [] 738893
  = Some ([(738886, 3); (738893, 3); (738900, 3); (738907, 3); (738914, 3);
           (738921, 3); (738928, 3)], Some 6)
  /\ exists total summary best_8,
       best_8_week_attendance [738816; 738810; 738809] 738893
       = Some (total, summary, best_8)
       /\ POLICY_DAYS_REQUIRED
          <= total + sum (firstn 7 (values [(738886, 3); (738893, 3); (738900, 3);
                                            (738907, 3); (738914, 3); (738921, 3);
                                            (738928, 3)])).
Proof.
  split; [reflexivity|].
  destruct (aligned_week_is_first 738886 [738816; 738810; 738809] [] 738893
              [(738886, 3); (738893, 3); (738900, 3); (738907, 3); (738914, 3);
               (738921, 3); (738928, 3)] (Some 6) eq_refl)
    as (total & summary & best_8 & Hsel & _ & Hreach & _).
  exists total, summary, best_8. split; [exact Hsel | exact Hreach].
Defined.

(** The projection never fails on its own: whenever the selector and
    the planner return, the loop over the keys of the plan finds every key
    (no [KeyError]) and the projection returns the planner's plan. *)
Theorem projection_returns (today : date) (attendance ooo_days : list date)
      (selected : date) (total : Z) (summary : dict Z)
      (best_8 : list (date * Z)) (needs : dict Z) :
  best_8_week_attendance attendance selected = Some (total, summary, best_8) ->
  calculate_future_needs today summary ooo_days selected = Some needs ->
  exists idx, projection today attendance ooo_days selected = Some (needs, idx).
Proof.
  intros Hsel Hplan. unfold projection. rewrite Hsel. cbn [bind fst snd].
  rewrite Hplan. cbn [bind].
  rewrite (cumulative_totals_items needs needs total)
    by (try (eapply calculate_future_needs_NoDup; eassumption); apply incl_refl).
  cbn [bind]. eexists; reflexivity.
Qed.

Lemma projection_returns_witness :
  exists idx,
    projection 738886 [738816; 738810; 738809] [] 738893
    = Some ([(738886, 3); (738893, 3); (738900, 3); (738907, 3); (738914, 3);
             (738921, 3); (738928, 3)], idx).
Proof.
  apply (projection_returns 738886 [738816; 738810; 738809] [] 738893
           3 [(738816, 1); (738809, 2)] [(738809, 2); (738816, 1)]).
  - reflexivity.
  - reflexivity.
Defined.

(** X30. Alignment is found when the weeks have room: when the week of
    today is not after the last candidate week and the capacities of the
    candidate weeks add up to at least the shortfall max(24 - total, 0), the
    projection finds an aligned week (it does not answer [None]). *)
Theorem projection_aligned_when_capacity (today : date)
      (attendance ooo_days : list date) (selected : date) (total : Z)
      (summary : dict Z) (best_8 : list (date * Z)) (needs : dict Z) :
  best_8_week_attendance attendance selected = Some (total, summary, best_8) ->
  calculate_future_needs today summary ooo_days selected = Some needs ->
  get_week_start today <= get_week_start (selected + 7 * 5) ->
  Z.max (POLICY_DAYS_REQUIRED - total) 0
  <= sum (map (fun week => Z.min 3 (5 - ooo_count ooo_days week))
              (candidate_weeks today selected)) ->
  exists i, projection today attendance ooo_days selected = Some (needs, Some i).
Proof.
  intros Hsel Hplan Hweeks Hcap.
  unfold projection. rewrite Hsel. cbn [bind fst snd]. rewrite Hplan. cbn [bind].
  rewrite (cumulative_totals_items needs needs total)
    by (try (eapply calculate_future_needs_NoDup; eassumption); apply incl_refl).
  cbn [bind]. unfold aligned_week_index.
  destruct (aligned_week_index_from 0 (running_sums total (values needs)))
    as [i|] eqn:Hidx; [now exists i|].
  exfalso.
  assert (Hsum : total + sum (values needs) = Z.max POLICY_DAYS_REQUIRED total).
  { pose proof Hsel as Hsel'. apply best_8_inv in Hsel'.
    destruct Hsel' as (_ & Hb & Ht). rewrite Hb, best_8_total_top in Ht.
    rewrite (plan_sum_values _ _ _ _ _ Hplan).
    assert (Hs : initial_shortfall summary = Z.max (POLICY_DAYS_REQUIRED - total) 0).
    { unfold initial_shortfall. now rewrite Ht. }
    rewrite sum_allocated_items;
      [rewrite Hs; lia | apply initial_shortfall_nonneg | rewrite Hs; exact Hcap]. }
  assert (Hlen : (0 < length (values needs))%nat).
  { pose proof Hplan as Hk. apply calculate_future_needs_inv in Hk. cbv zeta in Hk.
    destruct Hk as [_ Hk].
    assert (Hin : In (get_week_start today) (keys needs)).
    { rewrite Hk. apply In_candidate_weeks.
      split; [apply weekday_week_start | lia]. }
    unfold values, keys in *. rewrite length_map.
    destruct needs; [contradiction | cbn; lia]. }
  pose proof (aligned_running_None _ _ _ Hidx (length (values needs) - 1)%nat
                ltac:(lia)) as Hlt.
  replace (S (length (values needs) - 1)) with (length (values needs)) in Hlt by lia.
  rewrite firstn_all in Hlt. lia.
Qed.

Lemma projection_aligned_when_capacity_witness :
  exists i,
    projection 738886 [738816; 738810; 738809] [] 738893
    = Some ([(738886, 3); (738893, 3); (738900, 3); (738907, 3); (738914, 3);
             (738921, 3); (738928, 3)], Some i).
Proof.
  apply (projection_aligned_when_capacity 738886 [738816; 738810; 738809] [] 738893
           3 [(738816, 1); (738809, 2)] [(738809, 2); (738816, 1)]).
  - reflexivity.
  - reflexivity.
  - vm_compute. discriminate.
  - vm_compute. discriminate.
Defined.

Lemma week_start_latest_monday_witness :
  weekday (get_week_start 738891) = 0
  /\ get_week_start 738891 <= 738891 < get_week_start 738891 + 7
  /\ 738886 = get_week_start 738891.
Proof.
  destruct (week_start_latest_monday 738891) as (H1 & H2 & _ & H4).
  split; [exact H1|]. split; [exact H2|].
  apply H4; [reflexivity | lia].
Defined.

Lemma mark_sets_witness :
  In 738886 (attendance (mark {| attendance := []; ooo := [738886; 738887] |}
                              738886 StatusOffice))
  /\ ~ In 738886 (ooo (mark {| attendance := []; ooo := [738886; 738887] |}
                            738886 StatusOffice))
  /\ In 738887 (ooo (mark {| attendance := []; ooo := [738886; 738887] |}
                          738886 StatusOffice)).
Proof.
  destruct (mark_sets {| attendance := []; ooo := [738886; 738887] |}
                      738886 StatusOffice) as (Ha & Ho & Hother).
  split; [now apply Ha|]. split.
  - intros Hin. apply Ho in Hin. discriminate.
  - apply (Hother 738887); [discriminate | simpl; tauto].
Defined.
